(** * openai_mcp_hybrid: native tools and MCP servers behind one tool table

    A shallow embedding of [MCPServerConnection] and [HybridToolSystem]
    from [openai_mcp_hybrid.py], and of the result extraction of
    [call_mcp_tool] from [langchain_mcp_dynamic.py].

    Python objects become records, dictionaries become finite maps
    ([native_tools]) or insertion-ordered association lists
    ([mcp_servers], whose iteration order [close] depends on), raised
    exceptions become the [Raise] branch of [PyResult], and every [await]
    on the MCP client library is answered by a [World] and recorded in a
    trace of [Event]s. *)

From Stdlib Require Import String Ascii List ZArith Lia Bool.
From Stdlib Require DecimalString.
From stdpp Require Import base option strings list gmap.
Import ListNotations.

Set Warnings "-register-all".
Set Default Proof Using "Type".

Local Open Scope string_scope.
Local Open Scope list_scope.

(** ** Python values, exceptions and results *)

Module Py.

(** The values a native tool function hands back and a tool call
    receives as arguments. *)
Inductive value :=
| VNone
| VBool (b : bool)
| VInt (z : Z)
| VStr (s : string).

(** [str(v)]. *)
Definition str (v : value) : string :=
  match v with
  | VNone => "None"
  | VBool true => "True"
  | VBool false => "False"
  | VInt z => DecimalString.NilZero.string_of_int (Z.to_int z)
  | VStr s => s
  end.

Inductive exn :=
| AttributeError (msg : string)
| KeyError (key : string)
| ValueError (msg : string)
| OtherError (msg : string).

Inductive PyResult (A : Type) :=
| Return (a : A)
| Raise (e : exn).
Arguments Return {A} a.
Arguments Raise {A} e.

(** [sep.join(parts)]. *)
Fixpoint join (sep : string) (parts : list string) : string :=
  match parts with
  | [] => ""
  | [p] => p
  | p :: rest => p +:+ sep +:+ join sep rest
  end.

(** The one-character string written ["\n"] in the source. *)
Definition newline : string := String (ascii_of_nat 10) EmptyString.

(** A [dict] with string keys whose iteration order is observable:
    keys are unique, [d[k] = v] overwrites in place or appends. *)
Section Dict.
Context {V : Type}.

Fixpoint dict_get (d : list (string * V)) (k : string) : option V :=
  match d with
  | [] => None
  | (k', v) :: rest => if String.eqb k' k then Some v else dict_get rest k
  end.

Fixpoint dict_set (d : list (string * V)) (k : string) (v : V)
  : list (string * V) :=
  match d with
  | [] => [(k, v)]
  | (k', v') :: rest =>
      if String.eqb k' k then (k', v) :: rest
      else (k', v') :: dict_set rest k v
  end.
End Dict.

End Py.
Import Py.

(** The [arguments] dictionary of a tool call. *)
Definition Arguments_ := list (string * value).

(** ** The MCP client library, as seen from the scripts *)

(** JSON values, for tool parameter schemas. *)
Inductive json :=
| JNull
| JBool (b : bool)
| JNum (z : Z)
| JStr (s : string)
| JArr (items : list json)
| JObj (fields : list (string * json)).

(** One entry of [list_tools().tools]; [inputSchema] may be missing
    ([hasattr(tool, 'inputSchema')]). *)
Module Tool.
Record t := {
  name : string;
  description : string;
  inputSchema : option json
}.
End Tool.

(** One entry of [result.content]: an item with a [text] attribute, or
    anything else ([hasattr(content, 'text')]). *)
Inductive ContentItem :=
| TextContent (text : string)
| OtherContent.

Record StdioServerParameters := {
  command : string;
  args : list string
}.

(** The object bound by [ClientSession(read, write)]: it talks to the
    process started from [peer]. *)
Record ClientSession := { peer : StdioServerParameters }.

(** The context managers an [AsyncExitStack] has entered and not yet
    left, innermost first. *)
Inductive Ctx := CtxStdio | CtxSession.
Definition AsyncExitStack := list Ctx.

(** Each [await] on the library is one event of the trace. *)
Inductive Event :=
| EvStdioClient (p : StdioServerParameters)
| EvClientSession (p : StdioServerParameters)
| EvInitialize (p : StdioServerParameters)
| EvListTools (p : StdioServerParameters)
| EvCallTool (p : StdioServerParameters) (name : string) (arguments : Arguments_)
| EvAclose (p : StdioServerParameters)
| EvNative (name : string) (arguments : Arguments_).

(** What the library and the server processes answer.  [w_call_tool]
    also receives whether the session's context is still entered: what
    a session does after its stack was closed is the library's affair. *)
Record World := {
  w_stdio_client : StdioServerParameters -> PyResult unit;
  w_client_session : StdioServerParameters -> PyResult unit;
  w_initialize : StdioServerParameters -> PyResult unit;
  w_list_tools : StdioServerParameters -> PyResult (list Tool.t);
  w_call_tool : StdioServerParameters -> bool -> string -> Arguments_ ->
                PyResult (list ContentItem);
  w_aclose : StdioServerParameters -> PyResult unit
}.

(** ** Methods as state-passing computations

    A method body runs on its [self] of type [S], returns or raises,
    leaves [self] as it was at that point, and contributes events. *)

Definition M (S A : Type) : Type := S -> PyResult A * S * list Event.

Definition ret {S A} (a : A) : M S A := fun s => (Return a, s, []).
Definition raise {S A} (e : exn) : M S A := fun s => (Raise e, s, []).

Definition bind {S A B} (m : M S A) (k : A -> M S B) : M S B :=
  fun s =>
    match m s with
    | (Return a, s1, ev1) =>
        let '(r, s2, ev2) := k a s1 in (r, s2, ev1 ++ ev2)
    | (Raise e, s1, ev1) => (Raise e, s1, ev1)
    end.

Definition gets {S A} (f : S -> A) : M S A := fun s => (Return (f s), s, []).
Definition modify {S} (f : S -> S) : M S unit := fun s => (Return tt, f s, []).

(** [await] on the library: the event is recorded, the answer returned
    or raised. *)
Definition await {S A} (ev : Event) (answer : PyResult A) : M S A :=
  fun s => (answer, s, [ev]).

Declare Scope py_scope.
Delimit Scope py_scope with py.
Notation "x <~ m ;; k" := (bind m (fun x => k))
  (at level 100, m at next level, right associativity) : py_scope.
Notation "m ;;; k" := (bind m (fun _ => k))
  (at level 100, right associativity) : py_scope.
Local Open Scope py_scope.

Definition result_of {S A} (x : PyResult A * S * list Event) : PyResult A := fst (fst x).
Definition state_of {S A} (x : PyResult A * S * list Event) : S := snd (fst x).
Definition trace_of {S A} (x : PyResult A * S * list Event) : list Event := snd x.

(** ** [class MCPServerConnection] *)

Module MCPServerConnection.

Record t := {
  name : string;
  server_params : StdioServerParameters;
  session : option ClientSession;
  stack : option AsyncExitStack;
  tools : list Tool.t
}.

Definition set_session (v : option ClientSession) (self : t) : t :=
  {| name := name self; server_params := server_params self;
     session := v; stack := stack self; tools := tools self |}.
Definition set_stack (v : option AsyncExitStack) (self : t) : t :=
  {| name := name self; server_params := server_params self;
     session := session self; stack := v; tools := tools self |}.
Definition set_tools (v : list Tool.t) (self : t) : t :=
  {| name := name self; server_params := server_params self;
     session := session self; stack := stack self; tools := v |}.

(** [self.stack.enter_async_context(...)] once the context manager's
    [__aenter__] has returned. *)
Definition enter_async_context (c : Ctx) (self : t) : t :=
  set_stack (Some (c :: default [] (stack self))) self.

Definition __init__ (name : string) (command : string) (args : list string) : t :=
  {| name := name;
     server_params := {| command := command; args := args |};
     session := None; stack := None; tools := [] |}.

Definition connect (w : World) : M t unit :=
  modify (set_stack (Some [])) ;;;
  p <~ gets server_params ;;
  await (EvStdioClient p) (w_stdio_client w p) ;;;
  modify (enter_async_context CtxStdio) ;;;
  await (EvClientSession p) (w_client_session w p) ;;;
  modify (enter_async_context CtxSession) ;;;
  modify (set_session (Some {| peer := p |})) ;;;
  await (EvInitialize p) (w_initialize w p) ;;;
  response <~ await (EvListTools p) (w_list_tools w p) ;;
  modify (set_tools response).

(** The [texts] list built by the loop over [result.content]. *)
Fixpoint texts_of (content : list ContentItem) : list string :=
  match content with
  | [] => []
  | TextContent text :: rest => text :: texts_of rest
  | OtherContent :: rest => texts_of rest
  end.

(** Whether the session's context manager is still entered. *)
Definition session_entered (self : t) : bool :=
  match stack self with
  | Some ctxs => existsb (fun c => match c with CtxSession => true | _ => false end) ctxs
  | None => false
  end.

Definition call_tool (w : World) (tool_name : string) (arguments : Arguments_)
  : M t string :=
  s <~ gets session ;;
  match s with
  | None => raise (AttributeError "'NoneType' object has no attribute 'call_tool'")
  | Some sess =>
      live <~ gets session_entered ;;
      content <~ await (EvCallTool (peer sess) tool_name arguments)
                       (w_call_tool w (peer sess) live tool_name arguments) ;;
      ret (join newline (texts_of content))
  end.

(** [aclose] leaves every entered context, whether or not leaving one
    raises; a stack with nothing entered has nothing to await. *)
Definition close (w : World) : M t unit :=
  st <~ gets stack ;;
  match st with
  | None => ret tt
  | Some [] => ret tt
  | Some (_ :: _) =>
      p <~ gets server_params ;;
      modify (set_stack (Some [])) ;;;
      await (EvAclose p) (w_aclose w p)
  end.

End MCPServerConnection.

(** Running a method on an object held in a local variable: the caller
    gets the object back when the method returns; when it raises, the
    exception leaves the caller too and the local is dropped. *)
Definition on_local {S O A} (o : O) (m : M O A) : M S (A * O) :=
  fun s =>
    match m o with
    | (Return a, o', ev) => (Return (a, o'), s, ev)
    | (Raise e, _, ev) => (Raise e, s, ev)
    end.

(** [for x in xs: body(x)]. *)
Fixpoint for_each {S A} (xs : list A) (body : A -> M S unit) : M S unit :=
  match xs with
  | [] => ret tt
  | x :: rest => body x ;;; for_each rest body
  end.

(** ** [class HybridToolSystem] *)

Module HybridToolSystem.

(** A native tool: an async function of the arguments dictionary. *)
Abbreviation Callable := (Arguments_ -> PyResult value).

(** The two private keys of a remote tool's ["function"] dictionary. *)
Record McpMeta := {
  _mcp_server : string;
  _mcp_original_name : string
}.

(** An entry of [all_tools]: [{"type": "function", "function": {...}}]. *)
Record ToolDef := {
  fn_name : string;
  fn_description : string;
  fn_parameters : json;
  fn_mcp : option McpMeta
}.

Record t := {
  mcp_servers : list (string * MCPServerConnection.t);
  native_tools : gmap string Callable;
  all_tools : list ToolDef
}.

Definition set_mcp_servers (v : list (string * MCPServerConnection.t)) (self : t) : t :=
  {| mcp_servers := v; native_tools := native_tools self; all_tools := all_tools self |}.
Definition set_native_tools (v : gmap string Callable) (self : t) : t :=
  {| mcp_servers := mcp_servers self; native_tools := v; all_tools := all_tools self |}.
Definition set_all_tools (v : list ToolDef) (self : t) : t :=
  {| mcp_servers := mcp_servers self; native_tools := native_tools self; all_tools := v |}.

Definition __init__ : t :=
  {| mcp_servers := []; native_tools := ∅; all_tools := [] |}.

Definition append_tool (tool_def : ToolDef) (self : t) : t :=
  set_all_tools (all_tools self ++ [tool_def]) self.

Definition add_native_tool (name description : string) (parameters : json)
           (function : Callable) : M t unit :=
  modify (fun self => set_native_tools (<[name := function]> (native_tools self)) self) ;;;
  let tool_def :=
    {| fn_name := name; fn_description := description;
       fn_parameters := parameters; fn_mcp := None |} in
  modify (append_tool tool_def).

(** [{"type": "object", "properties": {}}]. *)
Definition empty_schema : json :=
  JObj [("type", JStr "object"); ("properties", JObj [])].

(** [f"{tool_prefix}_{tool.name}" if tool_prefix else tool.name]: [None]
    and the empty string are both falsy. *)
Definition prefixed_name (tool_prefix : option string) (tool_name : string) : string :=
  match tool_prefix with
  | None => tool_name
  | Some "" => tool_name
  | Some p => p +:+ "_" +:+ tool_name
  end.

(** [tool_name in self.native_tools or
     any(t['function']['name'] == tool_name for t in self.all_tools)]. *)
Definition name_taken (self : t) (tool_name : string) : bool :=
  bool_decide (is_Some (native_tools self !! tool_name))
  || existsb (fun t => String.eqb (fn_name t) tool_name) (all_tools self).

(** The name one remote tool is registered under. *)
Definition resolve_name (self : t) (server_name : string)
           (tool_prefix : option string) (tool : Tool.t) : string :=
  let tool_name := prefixed_name tool_prefix (Tool.name tool) in
  if name_taken self tool_name
  then server_name +:+ "_" +:+ Tool.name tool
  else tool_name.

(** The body of the loop over [server.tools]. *)
Definition register_tool (server_name : string) (tool_prefix : option string)
           (tool : Tool.t) : M t unit :=
  tool_name <~ gets (fun self => resolve_name self server_name tool_prefix tool) ;;
  let parameters := default empty_schema (Tool.inputSchema tool) in
  let tool_def :=
    {| fn_name := tool_name;
       fn_description := "[MCP:" +:+ server_name +:+ "] " +:+ Tool.description tool;
       fn_parameters := parameters;
       fn_mcp := Some {| _mcp_server := server_name;
                         _mcp_original_name := Tool.name tool |} |} in
  modify (append_tool tool_def).

Definition add_mcp_server (w : World) (server_name command : string)
           (args : list string) (tool_prefix : option string) : M t unit :=
  let server := MCPServerConnection.__init__ server_name command args in
  connected <~ on_local server (MCPServerConnection.connect w) ;;
  let server := snd connected in
  modify (fun self => set_mcp_servers (dict_set (mcp_servers self) server_name server) self) ;;;
  for_each (MCPServerConnection.tools server) (register_tool server_name tool_prefix).

(** The test of the loop in [execute_tool]. *)
Definition is_mcp_tool_named (tool_name : string) (tool : ToolDef) : bool :=
  String.eqb (fn_name tool) tool_name && bool_decide (is_Some (fn_mcp tool)).

(** [server.call_tool(...)] on the connection stored under
    [server_name]: the object stays in the dictionary. *)
Definition call_on_server (w : World) (server_name original_name : string)
           (arguments : Arguments_) : M t string :=
  fun self =>
    match dict_get (mcp_servers self) server_name with
    | None => (Raise (KeyError server_name), self, [])
    | Some server =>
        let '(r, server', ev) :=
          MCPServerConnection.call_tool w original_name arguments server in
        (r, set_mcp_servers (dict_set (mcp_servers self) server_name server') self, ev)
    end.

Definition execute_tool (w : World) (tool_name : string) (arguments : Arguments_)
  : M t string :=
  natives <~ gets native_tools ;;
  match natives !! tool_name with
  | Some function =>
      result <~ await (EvNative tool_name arguments) (function arguments) ;;
      ret (str result)
  | None =>
      tools <~ gets all_tools ;;
      match find (is_mcp_tool_named tool_name) tools with
      | Some {| fn_mcp := Some meta |} =>
          call_on_server w (_mcp_server meta) (_mcp_original_name meta) arguments
      | _ => raise (ValueError ("Unknown tool: " +:+ tool_name))
      end
  end.

(** The loop of [close] over [self.mcp_servers.values()]: an exception
    from one [server.close()] ends the loop. *)
Fixpoint close_each (w : World) (servers : list (string * MCPServerConnection.t))
  : PyResult unit * list (string * MCPServerConnection.t) * list Event :=
  match servers with
  | [] => (Return tt, [], [])
  | (k, server) :: rest =>
      match MCPServerConnection.close w server with
      | (Return _, server', ev) =>
          let '(r, rest', ev') := close_each w rest in
          (r, (k, server') :: rest', ev ++ ev')
      | (Raise e, server', ev) => (Raise e, (k, server') :: rest, ev)
      end
  end.

Definition close (w : World) : M t unit :=
  fun self =>
    let '(r, servers', ev) := close_each w (mcp_servers self) in
    (r, set_mcp_servers servers' self, ev).

End HybridToolSystem.

(** ** [class MCPToolWrapper] of [langchain_mcp_dynamic.py] *)

Module MCPToolWrapper.

Record t := {
  session : option ClientSession;
  stack : option AsyncExitStack
}.

Definition session_entered (self : t) : bool :=
  match stack self with
  | Some ctxs => existsb (fun c => match c with CtxSession => true | _ => false end) ctxs
  | None => false
  end.

(** The closure [call_mcp_tool(tool_name=mcp_tool.name, **kwargs)]. *)
Definition call_mcp_tool (w : World) (tool_name : string) (kwargs : Arguments_)
  : M t string :=
  s <~ gets session ;;
  match s with
  | None => raise (AttributeError "'NoneType' object has no attribute 'call_tool'")
  | Some sess =>
      live <~ gets session_entered ;;
      content <~ await (EvCallTool (peer sess) tool_name kwargs)
                       (w_call_tool w (peer sess) live tool_name kwargs) ;;
      let texts := MCPServerConnection.texts_of content in
      ret (match texts with
           | [] => "No result"
           | _ :: _ => join newline texts
           end)
  end.

End MCPToolWrapper.

(** ** Vocabulary of the properties *)

Import HybridToolSystem.

(** The externally visible names, in the order of [all_tools]. *)
Definition registered_names (self : HybridToolSystem.t) : list string :=
  map fn_name (all_tools self).

(** The names of the remote descriptors only. *)
Definition remote_names (self : HybridToolSystem.t) : list string :=
  map fn_name (filter (fun tool => bool_decide (is_Some (fn_mcp tool))) (all_tools self)).

(** The first and the second candidate name of a remote tool. *)
Definition first_candidate (tool_prefix : option string) (tool : Tool.t) : string :=
  prefixed_name tool_prefix (Tool.name tool).
Definition fallback_candidate (server_name : string) (tool : Tool.t) : string :=
  server_name +:+ "_" +:+ Tool.name tool.

(** A registration request, as [main] issues them. *)
Inductive Registration :=
| RegNative (name description : string) (parameters : json) (function : Callable)
| RegRemote (server_name command : string) (args : list string)
            (tool_prefix : option string).

Definition register (w : World) (r : Registration) : M HybridToolSystem.t unit :=
  match r with
  | RegNative name description parameters function =>
      add_native_tool name description parameters function
  | RegRemote server_name command args tool_prefix =>
      add_mcp_server w server_name command args tool_prefix
  end.

(** The system after a sequence of registrations, whatever each of them
    returned or raised. *)
Definition registry_after (w : World) (rs : list Registration)
           (self : HybridToolSystem.t) : HybridToolSystem.t :=
  fold_left (fun s r => state_of (register w r s)) rs self.

(** The system after the loop over [server.tools]. *)
Definition register_batch (server_name : string) (tool_prefix : option string)
           (tools : list Tool.t) (self : HybridToolSystem.t) : HybridToolSystem.t :=
  fold_left (fun s tool => state_of (register_tool server_name tool_prefix tool s))
            tools self.

(** The descriptor built for one remote tool registered under [name]. *)
Definition remote_def (server_name name : string) (tool : Tool.t) : ToolDef :=
  {| fn_name := name;
     fn_description := "[MCP:" +:+ server_name +:+ "] " +:+ Tool.description tool;
     fn_parameters := default empty_schema (Tool.inputSchema tool);
     fn_mcp := Some {| _mcp_server := server_name;
                       _mcp_original_name := Tool.name tool |} |}.

(** Along one remote batch: whenever a tool's first candidate is taken,
    its fallback candidate is free. *)
Fixpoint fallbacks_free (self : HybridToolSystem.t) (server_name : string)
         (tool_prefix : option string) (tools : list Tool.t) : bool :=
  match tools with
  | [] => true
  | tool :: rest =>
      implb (name_taken self (first_candidate tool_prefix tool))
            (negb (name_taken self (fallback_candidate server_name tool)))
      && fallbacks_free (state_of (register_tool server_name tool_prefix tool self))
                        server_name tool_prefix rest
  end.

(** Along a sequence of registrations: native names are new when they
    are registered, and every remote batch has its fallbacks free. *)
Fixpoint collision_free (w : World) (rs : list Registration)
         (self : HybridToolSystem.t) : bool :=
  match rs with
  | [] => true
  | r :: rest =>
      match r with
      | RegNative name _ _ _ => negb (name_taken self name)
      | RegRemote server_name command args tool_prefix =>
          match MCPServerConnection.connect w
                  (MCPServerConnection.__init__ server_name command args) with
          | (Return _, server, _) =>
              fallbacks_free
                (set_mcp_servers (dict_set (mcp_servers self) server_name server) self)
                server_name tool_prefix (MCPServerConnection.tools server)
          | (Raise _, _, _) => true
          end
      end
      && collision_free w rest (state_of (register w r self))
  end.

(** Every name bound in [native_tools] has a descriptor in [all_tools]. *)
Definition natives_listed (self : HybridToolSystem.t) : Prop :=
  forall n, is_Some (native_tools self !! n) -> n ∈ registered_names self.

(** The lifecycle of a connection, read off its fields: no session
    object yet; a session whose context is entered; a session whose
    stack has been closed. *)
Inductive Lifecycle := Unopened | Open | Closed.

Definition lifecycle_of (self : MCPServerConnection.t) : Lifecycle :=
  match MCPServerConnection.session self with
  | None => Unopened
  | Some _ => if MCPServerConnection.session_entered self then Open else Closed
  end.

(** [str] applied to what a native tool returned. *)
Definition str_result (r : PyResult value) : PyResult string :=
  match r with
  | Return v => Return (str v)
  | Raise e => Raise e
  end.

(** One dictionary entry after [server.close()]. *)
Definition closed_entry (w : World) (kv : string * MCPServerConnection.t)
  : string * MCPServerConnection.t :=
  (fst kv, state_of (MCPServerConnection.close w (snd kv))).

Definition closes_cleanly (w : World) (kv : string * MCPServerConnection.t) : Prop :=
  result_of (MCPServerConnection.close w (snd kv)) = Return tt.

(** The description tag of a remote tool. *)
Definition mcp_tag (server_name : string) : string :=
  "[MCP:" +:+ server_name +:+ "] ".

(** The events [server.close()] contributes for one dictionary entry. *)
Definition close_trace (w : World) (kv : string * MCPServerConnection.t) : list Event :=
  trace_of (MCPServerConnection.close w (snd kv)).

(** The text [MCPServerConnection.call_tool] makes of the library's
    answer to [session.call_tool]. *)
Definition joined_text (answer : PyResult (list ContentItem)) : PyResult string :=
  match answer with
  | Return content => Return (join newline (MCPServerConnection.texts_of content))
  | Raise e => Raise e
  end.

(** A descriptor that carries a remote tool's description behind the
    server's tag, and the routing data of that tool. *)
Definition tagged_for (server_name : string) (tool : Tool.t) (d : ToolDef) : Prop :=
  fn_description d = mcp_tag server_name +:+ Tool.description tool
  /\ fn_description d <> Tool.description tool
  /\ fn_mcp d = Some {| _mcp_server := server_name;
                        _mcp_original_name := Tool.name tool |}.

(** ** Concrete worlds and systems for the examples *)

Module Examples.

(** A world in which every step succeeds: every server lists [tools]
    and answers every call with [content]. *)
Definition calm (tools : list Tool.t) (content : list ContentItem) : World :=
  {| w_stdio_client := fun _ => Return tt;
     w_client_session := fun _ => Return tt;
     w_initialize := fun _ => Return tt;
     w_list_tools := fun _ => Return tools;
     w_call_tool := fun _ _ _ _ => Return content;
     w_aclose := fun _ => Return tt |}.

(** A world in which listing the tools fails. *)
Definition no_listing : World :=
  {| w_stdio_client := fun _ => Return tt;
     w_client_session := fun _ => Return tt;
     w_initialize := fun _ => Return tt;
     w_list_tools := fun _ => Raise (OtherError "Connection closed");
     w_call_tool := fun _ _ _ _ => Return [];
     w_aclose := fun _ => Return tt |}.

(** A world in which closing the server started by ["flaky"] fails. *)
Definition flaky_close : World :=
  {| w_stdio_client := fun _ => Return tt;
     w_client_session := fun _ => Return tt;
     w_initialize := fun _ => Return tt;
     w_list_tools := fun _ => Return [];
     w_call_tool := fun _ _ _ _ => Return [];
     w_aclose := fun p =>
       if String.eqb (command p) "flaky"
       then Raise (OtherError "Broken pipe")
       else Return tt |}.

Definition tool (name : string) : Tool.t :=
  {| Tool.name := name; Tool.description := "remote " +:+ name;
     Tool.inputSchema := None |}.

Definition forty_two : Callable := fun _ => Return (VInt 42).
Definition seven : Callable := fun _ => Return (VStr "seven").

(** [add_numbers] registered natively, then a server ["calc"] whose
    only tool is [add_numbers], without prefix. *)
Definition scenario : list Registration :=
  [RegNative "add_numbers" "adds" empty_schema forty_two;
   RegRemote "calc" "python" ["calc.py"] None].

(** The same native name registered twice. *)
Definition twice : list Registration :=
  [RegNative "echo" "first" empty_schema forty_two;
   RegNative "echo" "second" empty_schema seven].

(** What the server ["srv"] lists, to be attached after a native [get]. *)
Definition clash_tools : list Tool.t := [tool "srv_get"; tool "get"].

(** A remote [lookup] registered first, a native [lookup] after it. *)
Definition shadowed : list Registration :=
  [RegRemote "db" "python" ["db.py"] None;
   RegNative "lookup" "native lookup" empty_schema seven].

(** The system after [shadowed], the server listing [lookup]. *)
Definition lookup_twice : HybridToolSystem.t :=
  registry_after (calm [tool "lookup"] [TextContent "remote"]) shadowed
                 HybridToolSystem.__init__.

(** Two servers attached in this order: ["a"] started by ["flaky"],
    ["b"] started by ["steady"]. *)
Definition two_servers : HybridToolSystem.t :=
  registry_after flaky_close
    [RegRemote "a" "flaky" [] None; RegRemote "b" "steady" [] None]
    HybridToolSystem.__init__.

(** The system after the first registration of [twice]. *)
Definition echo_once : HybridToolSystem.t :=
  registry_after (calm [] []) [RegNative "echo" "first" empty_schema forty_two]
                 HybridToolSystem.__init__.

(** The system after the native registration of [clash]. *)
Definition get_only : HybridToolSystem.t :=
  registry_after (calm clash_tools [])
                 [RegNative "get" "native get" empty_schema forty_two]
                 HybridToolSystem.__init__.

(** The connection objects [add_mcp_server] builds in [flaky_close]. *)
Definition server_of (name command : string) : MCPServerConnection.t :=
  state_of (MCPServerConnection.connect flaky_close
              (MCPServerConnection.__init__ name command [])).

(** Three servers: a steady one, then the flaky one, then a steady one. *)
Definition three_servers : HybridToolSystem.t :=
  registry_after flaky_close
    [RegRemote "first" "steady" [] None; RegRemote "a" "flaky" [] None;
     RegRemote "b" "steady" [] None]
    HybridToolSystem.__init__.

Definition fresh_connection : MCPServerConnection.t :=
  MCPServerConnection.__init__ "srv" "python" ["srv.py"].
Definition connected : MCPServerConnection.t :=
  state_of (MCPServerConnection.connect (calm [] []) fresh_connection).
Definition closed : MCPServerConnection.t :=
  state_of (MCPServerConnection.close (calm [] []) connected).
Definition reconnected : MCPServerConnection.t :=
  state_of (MCPServerConnection.connect (calm [] []) closed).

End Examples.

(** A call that returns or raises without awaiting. *)
Definition lift {S A} (r : PyResult A) : M S A := fun s => (r, s, []).

(** ** The rest of [openai_mcp_hybrid.py]: [chat_completion] *)

Module Chat.

(** One entry of [message.tool_calls]. *)
Record ToolCall := {
  id : string;
  function_name : string;
  function_arguments : string
}.

(** [response.choices[0].message]. *)
Record ChatCompletionMessage := {
  content : option string;
  tool_calls : option (list ToolCall)
}.

(** The dictionaries of the [messages] list: those the caller put there,
    [message.model_dump()], and the tool results. *)
Inductive MessageDict :=
| Plain (role content : string)
| Dumped (message : ChatCompletionMessage)
| ToolMessage (tool_call_id name content : string).

(** A tool definition with the two private keys left out. *)
Record CleanTool := {
  ct_name : string;
  ct_description : string;
  ct_parameters : json
}.

(** The arguments of one [chat.completions.create]: [tools] is absent
    from the second call, and [tool_choice="auto"] goes with [tools]. *)
Record Request := {
  req_messages : list MessageDict;
  req_tools : option (list CleanTool)
}.

(** The system, the caller's [messages] list (mutated in place), and
    the requests sent so far, oldest first. *)
Record State := {
  system : HybridToolSystem.t;
  messages : list MessageDict;
  requests : list Request
}.

Definition set_system (v : HybridToolSystem.t) (s : State) : State :=
  {| system := v; messages := messages s; requests := requests s |}.
Definition set_messages (v : list MessageDict) (s : State) : State :=
  {| system := system s; messages := v; requests := requests s |}.

(** [self.client.chat.completions.create(...)], then
    [response.choices[0].message]. *)
Definition create (client : Request -> PyResult ChatCompletionMessage)
           (request : Request) : M State ChatCompletionMessage :=
  fun s =>
    (client request,
     {| system := system s; messages := messages s;
        requests := requests s ++ [request] |},
     []).

(** A method of the system, run from [chat_completion]. *)
Definition on_system {A} (m : M HybridToolSystem.t A) : M State A :=
  fun s => let '(r, sys, ev) := m (system s) in (r, set_system sys s, ev).

Definition clean_tool (tool : ToolDef) : CleanTool :=
  {| ct_name := fn_name tool;
     ct_description := fn_description tool;
     ct_parameters := fn_parameters tool |}.

(** The loop over [message.tool_calls], [tool_results] being the list
    built so far. *)
Fixpoint run_tool_calls (json_loads : string -> PyResult Arguments_) (w : World)
         (calls : list ToolCall) (tool_results : list MessageDict)
  : M State (list MessageDict) :=
  match calls with
  | [] => ret tool_results
  | tool_call :: rest =>
      function_args <~ lift (json_loads (function_arguments tool_call)) ;;
      result <~ on_system (execute_tool w (function_name tool_call) function_args) ;;
      run_tool_calls json_loads w rest
        (tool_results
         ++ [ToolMessage (id tool_call) (function_name tool_call) result])
  end.

Definition chat_completion (client : Request -> PyResult ChatCompletionMessage)
           (json_loads : string -> PyResult Arguments_) (w : World)
  : M State (option string) :=
  clean_tools <~ gets (fun s => map clean_tool (all_tools (system s))) ;;
  sent <~ gets messages ;;
  message <~ create client {| req_messages := sent; req_tools := Some clean_tools |} ;;
  match tool_calls message with
  | Some (first :: others) =>
      tool_results <~ run_tool_calls json_loads w (first :: others) [] ;;
      modify (fun s => set_messages (messages s ++ [Dumped message]) s) ;;;
      modify (fun s => set_messages (messages s ++ tool_results) s) ;;;
      sent_again <~ gets messages ;;
      final <~ create client {| req_messages := sent_again; req_tools := None |} ;;
      ret (content final)
  | _ => ret (content message)
  end.

End Chat.

(** ** [class OpenAIMCPBridge] of [openai_mcp_bridge.py] *)

Module OpenAIMCPBridge.

(** An entry of [self.tools]. *)
Record OpenAITool := {
  name : string;
  description : string;
  parameters : json
}.

Record t := {
  server_params : StdioServerParameters;
  session : option ClientSession;
  stack : option AsyncExitStack;
  tools : list OpenAITool
}.

Definition set_session (v : option ClientSession) (self : t) : t :=
  {| server_params := server_params self; session := v;
     stack := stack self; tools := tools self |}.
Definition set_stack (v : option AsyncExitStack) (self : t) : t :=
  {| server_params := server_params self; session := session self;
     stack := v; tools := tools self |}.
Definition set_tools (v : list OpenAITool) (self : t) : t :=
  {| server_params := server_params self; session := session self;
     stack := stack self; tools := v |}.

Definition enter_async_context (c : Ctx) (self : t) : t :=
  set_stack (Some (c :: default [] (stack self))) self.

Definition __init__ (mcp_server_command : string) (mcp_server_args : list string) : t :=
  {| server_params := {| command := mcp_server_command; args := mcp_server_args |};
     session := None; stack := None; tools := [] |}.

Fixpoint _convert_mcp_tools_to_openai (mcp_tools : list Tool.t) : list OpenAITool :=
  match mcp_tools with
  | [] => []
  | tool :: rest =>
      {| name := Tool.name tool;
         description := Tool.description tool;
         parameters := default empty_schema (Tool.inputSchema tool) |}
      :: _convert_mcp_tools_to_openai rest
  end.

Definition connect (w : World) : M t unit :=
  modify (set_stack (Some [])) ;;;
  p <~ gets server_params ;;
  await (EvStdioClient p) (w_stdio_client w p) ;;;
  modify (enter_async_context CtxStdio) ;;;
  await (EvClientSession p) (w_client_session w p) ;;;
  modify (enter_async_context CtxSession) ;;;
  modify (set_session (Some {| peer := p |})) ;;;
  await (EvInitialize p) (w_initialize w p) ;;;
  response <~ await (EvListTools p) (w_list_tools w p) ;;
  modify (set_tools (_convert_mcp_tools_to_openai response)).

Definition session_entered (self : t) : bool :=
  match stack self with
  | Some ctxs => existsb (fun c => match c with CtxSession => true | _ => false end) ctxs
  | None => false
  end.

Definition call_mcp_tool (w : World) (name : string) (arguments : Arguments_)
  : M t string :=
  s <~ gets session ;;
  match s with
  | None => raise (AttributeError "'NoneType' object has no attribute 'call_tool'")
  | Some sess =>
      live <~ gets session_entered ;;
      content <~ await (EvCallTool (peer sess) name arguments)
                       (w_call_tool w (peer sess) live name arguments) ;;
      ret (join newline (MCPServerConnection.texts_of content))
  end.

Definition close (w : World) : M t unit :=
  st <~ gets stack ;;
  match st with
  | None => ret tt
  | Some [] => ret tt
  | Some (_ :: _) =>
      p <~ gets server_params ;;
      modify (set_stack (Some [])) ;;;
      await (EvAclose p) (w_aclose w p)
  end.

End OpenAIMCPBridge.

(** ** The module-level session of [langchain_mcp_simple.py] *)

Module Simple.

(** The globals [mcp_session] and [mcp_stack]. *)
Record Globals := {
  mcp_session : option ClientSession;
  mcp_stack : option AsyncExitStack
}.

Definition initial : Globals := {| mcp_session := None; mcp_stack := None |}.

Definition server_params : StdioServerParameters :=
  {| command := "python"; args := ["simple_server.py"] |}.

Definition enter_async_context (c : Ctx) (g : Globals) : Globals :=
  {| mcp_session := mcp_session g;
     mcp_stack := Some (c :: default [] (mcp_stack g)) |}.

Definition setup_mcp_connection (w : World) : M Globals unit :=
  modify (fun g => {| mcp_session := mcp_session g; mcp_stack := Some [] |}) ;;;
  await (EvStdioClient server_params) (w_stdio_client w server_params) ;;;
  modify (enter_async_context CtxStdio) ;;;
  await (EvClientSession server_params) (w_client_session w server_params) ;;;
  modify (enter_async_context CtxSession) ;;;
  modify (fun g => {| mcp_session := Some {| peer := server_params |};
                      mcp_stack := mcp_stack g |}) ;;;
  await (EvInitialize server_params) (w_initialize w server_params).

Definition session_entered (g : Globals) : bool :=
  match mcp_stack g with
  | Some ctxs => existsb (fun c => match c with CtxSession => true | _ => false end) ctxs
  | None => false
  end.

(** The loop of [get_hundred_from_mcp] over [result.content], with its
    [return 0] behind; [int] is Python's [int(str)]. *)
Fixpoint first_text_int (int : string -> PyResult Z) (content : list ContentItem)
  : PyResult Z :=
  match content with
  | [] => Return 0%Z
  | TextContent text :: _ => int text
  | OtherContent :: rest => first_text_int int rest
  end.

(** [raise RuntimeError("MCP connection not initialized")] is the
    [OtherError] with that message. *)
Definition get_hundred_from_mcp (int : string -> PyResult Z) (w : World)
  : M Globals Z :=
  s <~ gets mcp_session ;;
  match s with
  | None => raise (OtherError "MCP connection not initialized")
  | Some sess =>
      live <~ gets session_entered ;;
      content <~ await (EvCallTool (peer sess) "get_hundred" [])
                       (w_call_tool w (peer sess) live "get_hundred" []) ;;
      lift (first_text_int int content)
  end.

End Simple.

(** ** [main] of [openai_mcp_hybrid.py] *)

(** [try: body finally: final]: [final] runs whatever [body] did; its
    exception, if any, is the one that leaves, otherwise [body]'s
    outcome stands. *)
Definition try_finally {S A} (body : M S A) (final : M S unit) : M S A :=
  fun s =>
    let '(r, s1, ev1) := body s in
    match final s1 with
    | (Return _, s2, ev2) => (r, s2, ev1 ++ ev2)
    | (Raise e, s2, ev2) => (Raise e, s2, ev1 ++ ev2)
    end.

Module Main.

(** The parameter schema of [calculate_square]. *)
Definition square_schema : json :=
  JObj [("type", JStr "object");
        ("properties",
         JObj [("number",
                JObj [("type", JStr "number");
                      ("description", JStr "二乗する数値")])]);
        ("required", JArr [JStr "number"])].

(** The locals of [main] once [system] is constructed. *)
Definition start : Chat.State :=
  {| Chat.system := HybridToolSystem.__init__;
     Chat.messages := [];
     Chat.requests := [] |}.

(** The user message of [main]. *)
Definition question : string :=
  "現在時刻を教えて、5の二乗を計算して、MCPツールで100を取得してください。".

(** [main], the printing left out; [get_current_time] and
    [calculate_square] are the two functions of the file. *)
Definition main (client : Chat.Request -> PyResult Chat.ChatCompletionMessage)
           (json_loads : string -> PyResult Arguments_) (w : World)
           (get_current_time calculate_square : Callable)
  : M Chat.State unit :=
  Chat.on_system
    (add_native_tool "get_current_time" "現在時刻を取得します" empty_schema
                     get_current_time) ;;;
  Chat.on_system
    (add_native_tool "calculate_square" "数値の二乗を計算します" square_schema
                     calculate_square) ;;;
  try_finally
    (Chat.on_system
       (add_mcp_server w "simple_server" "python" ["simple_server.py"] (Some "mcp")) ;;;
     modify (Chat.set_messages [Chat.Plain "user" question]) ;;;
     response <~ Chat.chat_completion client json_loads w ;;
     ret tt)
    (Chat.on_system (close w)).

End Main.

(** ** Vocabulary for the rest of the system *)

(** The keys of an insertion-ordered dictionary, in iteration order. *)
Definition dict_keys {V} (d : list (string * V)) : list string := map fst d.

(** A connection as a successful [connect] leaves it. *)
Definition is_open (server : MCPServerConnection.t) : Prop :=
  MCPServerConnection.session server
  = Some {| peer := MCPServerConnection.server_params server |}
  /\ MCPServerConnection.stack server = Some [CtxSession; CtxStdio].

(** Every stored connection is as [connect] left it. *)
Definition servers_open (self : HybridToolSystem.t) : Prop :=
  Forall (fun kv => is_open (snd kv)) (mcp_servers self).

(** Every remote descriptor names a server that [mcp_servers] holds. *)
Definition servers_known (self : HybridToolSystem.t) : Prop :=
  forall d meta,
    d ∈ all_tools self -> fn_mcp d = Some meta ->
    is_Some (dict_get (mcp_servers self) (_mcp_server meta)).

(** Whether [aclose] still has a context to leave. *)
Definition has_entered (server : MCPServerConnection.t) : bool :=
  match MCPServerConnection.stack server with
  | Some (_ :: _) => true
  | _ => false
  end.

(** The number of stored connections with contexts still entered. *)
Definition pending (servers : list (string * MCPServerConnection.t)) : nat :=
  length (List.filter (fun kv => has_entered (snd kv)) servers).

Definition is_aclose (ev : Event) : bool :=
  match ev with
  | EvAclose _ => true
  | _ => false
  end.

(** What [add_mcp_server] makes of one listed tool, whatever the
    registry held: one of the two candidate names, the tool's schema or
    the empty object schema, and the original name for routing. *)
Definition adapted_from (server_name : string) (tool_prefix : option string)
           (tool : Tool.t) (d : ToolDef) : Prop :=
  (fn_name d = first_candidate tool_prefix tool
   \/ fn_name d = fallback_candidate server_name tool)
  /\ fn_parameters d = match Tool.inputSchema tool with
                       | Some schema => schema
                       | None => JObj [("type", JStr "object"); ("properties", JObj [])]
                       end
  /\ fn_mcp d = Some {| _mcp_server := server_name;
                        _mcp_original_name := Tool.name tool |}.

(** ** Vocabulary for [chat_completion] *)

(** What one tool call of the model comes to on a system: the result or
    exception of [json.loads] and [execute_tool], and the events. *)
Definition tool_outcome (json_loads : string -> PyResult Arguments_) (w : World)
           (sys : HybridToolSystem.t) (call : Chat.ToolCall)
  : PyResult string * list Event :=
  match json_loads (Chat.function_arguments call) with
  | Raise e => (Raise e, [])
  | Return function_args =>
      (result_of (execute_tool w (Chat.function_name call) function_args sys),
       trace_of (execute_tool w (Chat.function_name call) function_args sys))
  end.

(** The entry of [tool_results] for one call and its result. *)
Definition tool_message (call : Chat.ToolCall) (result : string) : Chat.MessageDict :=
  Chat.ToolMessage (Chat.id call) (Chat.function_name call) result.

(** The first request of [chat_completion]: the messages as they are,
    and the tool definitions without their private keys. *)
Definition first_request (s : Chat.State) : Chat.Request :=
  {| Chat.req_messages := Chat.messages s;
     Chat.req_tools := Some (map Chat.clean_tool (all_tools (Chat.system s))) |}.

(** The second request: the grown messages, and no tools. *)
Definition second_request (s : Chat.State) (message : Chat.ChatCompletionMessage)
           (tool_results : list Chat.MessageDict) : Chat.Request :=
  {| Chat.req_messages := Chat.messages s ++ Chat.Dumped message :: tool_results;
     Chat.req_tools := None |}.

(** [final_response.choices[0].message.content], when there is one. *)
Definition content_of (r : PyResult Chat.ChatCompletionMessage)
  : PyResult (option string) :=
  match r with
  | Return final => Return (Chat.content final)
  | Raise e => Raise e
  end.

(** The bridge of [openai_mcp_bridge.py] after [connect] to the server
    started by [command] and [args]. *)
Definition bridge_after (w : World) (command : string) (args : list string)
  : OpenAIMCPBridge.t :=
  state_of (OpenAIMCPBridge.connect w (OpenAIMCPBridge.__init__ command args)).

(** No two of the listed tools have the same name, and none of the
    names is taken in the system. *)
Definition fresh_tools (self : HybridToolSystem.t) (tools : list Tool.t) : Prop :=
  NoDup (map Tool.name tools)
  /\ forall tool, tool ∈ tools -> name_taken self (Tool.name tool) = false.

Module MoreExamples.

(** The system [main] builds: two native tools, then the server
    ["simple_server"] with prefix ["mcp"], listing [get_hundred]. *)
Definition demo_world : World :=
  Examples.calm [Examples.tool "get_hundred"] [TextContent "100"].

Definition demo_registrations : list Registration :=
  [RegNative "get_current_time" "time" empty_schema Examples.seven;
   RegNative "calculate_square" "square" empty_schema Examples.forty_two;
   RegRemote "simple_server" "python" ["simple_server.py"] (Some "mcp")].

Definition demo : HybridToolSystem.t :=
  registry_after demo_world demo_registrations HybridToolSystem.__init__.

Definition demo_server : MCPServerConnection.t :=
  state_of (MCPServerConnection.connect demo_world
              (MCPServerConnection.__init__ "simple_server" "python"
                                            ["simple_server.py"])).

Definition demo_def : ToolDef :=
  remote_def "simple_server" "mcp_get_hundred" (Examples.tool "get_hundred").

(** The descriptors of the two native tools of [demo]. *)
Definition demo_natives : list ToolDef :=
  [{| fn_name := "get_current_time"; fn_description := "time";
      fn_parameters := empty_schema; fn_mcp := None |};
   {| fn_name := "calculate_square"; fn_description := "square";
      fn_parameters := empty_schema; fn_mcp := None |}].

(** A parser that knows the empty object only. *)
Definition loads_empty (text : string) : PyResult Arguments_ :=
  if String.eqb text "{}" then Return []
  else Raise (ValueError "Expecting value").

Definition call (id name : string) : Chat.ToolCall :=
  {| Chat.id := id; Chat.function_name := name; Chat.function_arguments := "{}" |}.

(** A model that asks for [calls] when it is offered tools and answers
    ["done"] when it is not. *)
Definition asks_for (calls : option (list Chat.ToolCall))
  : Chat.Request -> PyResult Chat.ChatCompletionMessage :=
  fun request =>
    match Chat.req_tools request with
    | Some _ => Return {| Chat.content := None; Chat.tool_calls := calls |}
    | None => Return {| Chat.content := Some "done"; Chat.tool_calls := None |}
    end.

Definition asking : Chat.State :=
  {| Chat.system := demo;
     Chat.messages := [Chat.Plain "user" "square and hundred"];
     Chat.requests := [] |}.

(** A request for a tool nobody registered, between two good ones. *)
Definition mixed_calls : list Chat.ToolCall :=
  [call "call_1" "calculate_square"; call "call_2" "nonexistent";
   call "call_3" "mcp_get_hundred"].

Definition good_calls : list Chat.ToolCall :=
  [call "call_1" "calculate_square"; call "call_2" "mcp_get_hundred"].

(** An [int] that knows ["100"] only. *)
Definition int_hundred (text : string) : PyResult Z :=
  if String.eqb text "100" then Return 100%Z
  else Raise (ValueError "invalid literal for int() with base 10").

(** A server that answers with an image, then ["100"], then ["7"]. *)
Definition mixed_world : World :=
  Examples.calm [] [OtherContent; TextContent "100"; TextContent "7"].

Definition simple_ready : Simple.Globals :=
  state_of (Simple.setup_mcp_connection mixed_world Simple.initial).

End MoreExamples.

(** * Properties *)

(** ** Strings *)

Lemma append_cons (ch : ascii) (a b : string) :
  String ch a +:+ b = String ch (a +:+ b).
Proof. reflexivity. Qed.

Lemma append_length (a b : string) :
  String.length (a +:+ b) = String.length a + String.length b.
Proof.
  induction a as [|ch a IH]; [reflexivity|].
  rewrite append_cons. cbn [String.length]. now rewrite IH.
Qed.

Lemma append_nonempty_neq (a b : string) : a <> "" -> a +:+ b <> b.
Proof.
  intros Ha Heq.
  assert (Hlen : String.length (a +:+ b) = String.length b) by now rewrite Heq.
  rewrite append_length in Hlen.
  destruct a; [congruence | simpl in Hlen; lia].
Qed.

(** ** Registration, unfolded *)

Section Registration.
Variable w : World.

Lemma register_tool_eq server_name tool_prefix tool self :
  register_tool server_name tool_prefix tool self
  = (Return tt,
     append_tool (remote_def server_name
                    (resolve_name self server_name tool_prefix tool) tool) self,
     []).
Proof. reflexivity. Qed.

Lemma for_each_register server_name tool_prefix tools self :
  for_each tools (register_tool server_name tool_prefix) self
  = (Return tt, register_batch server_name tool_prefix tools self, []).
Proof.
  revert self. induction tools as [|tool rest IH]; intros self; [reflexivity|].
  cbn [for_each]. unfold bind at 1. rewrite register_tool_eq.
  rewrite IH. reflexivity.
Qed.

Lemma add_mcp_server_eq server_name command args tool_prefix self :
  add_mcp_server w server_name command args tool_prefix self
  = match MCPServerConnection.connect w
            (MCPServerConnection.__init__ server_name command args) with
    | (Return _, server, ev) =>
        (Return tt,
         register_batch server_name tool_prefix (MCPServerConnection.tools server)
           (set_mcp_servers (dict_set (mcp_servers self) server_name server) self),
         ev)
    | (Raise e, _, ev) => (Raise e, self, ev)
    end.
Proof.
  unfold add_mcp_server, bind at 1, on_local.
  destruct (MCPServerConnection.connect w _) as [[[[]|e] server] ev]; [|reflexivity].
  cbn [snd]. unfold bind, modify. rewrite for_each_register.
  now rewrite !app_nil_r.
Qed.

Lemma add_native_tool_eq name description parameters function self :
  add_native_tool name description parameters function self
  = (Return tt,
     append_tool {| fn_name := name; fn_description := description;
                    fn_parameters := parameters; fn_mcp := None |}
       (set_native_tools (<[name := function]> (native_tools self)) self),
     []).
Proof. reflexivity. Qed.

(** What [connect] leaves behind when every step succeeds. *)
Lemma connect_returns self r self' ev :
  MCPServerConnection.connect w self = (r, self', ev) ->
  r = Return tt ->
  w_list_tools w (MCPServerConnection.server_params self)
  = Return (MCPServerConnection.tools self')
  /\ MCPServerConnection.session self'
     = Some {| peer := MCPServerConnection.server_params self |}
  /\ MCPServerConnection.stack self' = Some [CtxSession; CtxStdio].
Proof.
  unfold MCPServerConnection.connect, bind, modify, gets, await.
  cbn.
  destruct (w_stdio_client w _) as [[]|e1]; cbn; [|intros [= <- <- <-]; discriminate].
  destruct (w_client_session w _) as [[]|e2]; cbn; [|intros [= <- <- <-]; discriminate].
  destruct (w_initialize w _) as [[]|e3]; cbn; [|intros [= <- <- <-]; discriminate].
  destruct (w_list_tools w _) as [ts|e4]; cbn; [|intros [= <- <- <-]; discriminate].
  intros [= <- <- <-] _. cbn. auto.
Qed.

(** A failure of [list_tools] is a failure of [connect]. *)
Lemma connect_list_tools_raises self e :
  w_stdio_client w (MCPServerConnection.server_params self) = Return tt ->
  w_client_session w (MCPServerConnection.server_params self) = Return tt ->
  w_initialize w (MCPServerConnection.server_params self) = Return tt ->
  w_list_tools w (MCPServerConnection.server_params self) = Raise e ->
  result_of (MCPServerConnection.connect w self) = Raise e.
Proof.
  intros H1 H2 H3 H4.
  unfold MCPServerConnection.connect, bind, modify, gets, await, result_of.
  cbn. rewrite H1. cbn. rewrite H2. cbn. rewrite H3. cbn. rewrite H4.
  reflexivity.
Qed.

End Registration.

(** ** Names in the registry *)

Lemma name_taken_spec self n :
  name_taken self n = true
  <-> is_Some (native_tools self !! n) \/ n ∈ registered_names self.
Proof.
  unfold name_taken, registered_names.
  rewrite orb_true_iff, bool_decide_eq_true, existsb_exists.
  split; intros [H|H]; auto; right.
  - destruct H as (t & Hin & Heq). apply String.eqb_eq in Heq. subst n.
    apply list_elem_of_In, in_map, Hin.
  - apply list_elem_of_In, in_map_iff in H. destruct H as (t & <- & Hin).
    exists t. split; [assumption | apply String.eqb_refl].
Qed.

Lemma name_free_not_registered self n :
  name_taken self n = false -> n ∉ registered_names self.
Proof.
  intros Hfree Hin.
  assert (name_taken self n = true) by (apply name_taken_spec; auto).
  congruence.
Qed.

Lemma append_tool_names d self :
  registered_names (append_tool d self) = registered_names self ++ [fn_name d].
Proof. unfold registered_names, append_tool. cbn. now rewrite map_app. Qed.

Lemma NoDup_snoc_fresh (l : list string) (x : string) :
  NoDup l -> x ∉ l -> NoDup (l ++ [x]).
Proof.
  intros Hl Hx. apply NoDup_app. split; [assumption|]. split.
  - intros y Hy Hin. apply list_elem_of_singleton in Hin. now subst y.
  - apply NoDup_singleton.
Qed.

(** A remote tool lands on its first candidate when that is free and on
    its fallback candidate when it is not. *)
Lemma resolve_name_cases self server_name tool_prefix tool :
  resolve_name self server_name tool_prefix tool
  = if name_taken self (first_candidate tool_prefix tool)
    then fallback_candidate server_name tool
    else first_candidate tool_prefix tool.
Proof. reflexivity. Qed.

Lemma register_tool_unique self server_name tool_prefix tool :
  NoDup (registered_names self) ->
  implb (name_taken self (first_candidate tool_prefix tool))
        (negb (name_taken self (fallback_candidate server_name tool))) = true ->
  NoDup (registered_names
           (state_of (register_tool server_name tool_prefix tool self))).
Proof.
  intros Hnd Hok. rewrite register_tool_eq. unfold state_of. cbn [fst snd].
  rewrite append_tool_names. cbn [fn_name remote_def].
  apply NoDup_snoc_fresh; [assumption|].
  apply name_free_not_registered. rewrite resolve_name_cases.
  destruct (name_taken self (first_candidate tool_prefix tool)) eqn:Hfirst.
  - cbn in Hok. now apply negb_true_iff in Hok.
  - assumption.
Qed.

Lemma register_batch_unique server_name tool_prefix tools self :
  NoDup (registered_names self) ->
  fallbacks_free self server_name tool_prefix tools = true ->
  NoDup (registered_names (register_batch server_name tool_prefix tools self)).
Proof.
  revert self. induction tools as [|tool rest IH]; intros self Hnd Hok.
  - exact Hnd.
  - cbn [fallbacks_free] in Hok. apply andb_true_iff in Hok as [Hhead Hrest].
    unfold register_batch. cbn [fold_left]. apply IH; [|exact Hrest].
    now apply register_tool_unique.
Qed.

Lemma register_unique w r self :
  NoDup (registered_names self) ->
  collision_free w [r] self = true ->
  NoDup (registered_names (state_of (register w r self))).
Proof.
  intros Hnd Hok. cbn [collision_free] in Hok. rewrite andb_true_r in Hok.
  destruct r as [name description parameters function
                | server_name command args tool_prefix]; cbn [register].
  - rewrite add_native_tool_eq. unfold state_of. cbn [fst snd].
    rewrite append_tool_names. cbn [fn_name].
    apply NoDup_snoc_fresh; [assumption|].
    apply negb_true_iff in Hok. now apply name_free_not_registered in Hok.
  - rewrite add_mcp_server_eq.
    destruct (MCPServerConnection.connect w _) as [[[[]|e] server] ev];
      unfold state_of; cbn [fst snd]; [|assumption].
    apply register_batch_unique; assumption.
Qed.

Lemma registry_after_unique w rs self :
  NoDup (registered_names self) ->
  collision_free w rs self = true ->
  NoDup (registered_names (registry_after w rs self)).
Proof.
  revert self. induction rs as [|r rest IH]; intros self Hnd Hok; [exact Hnd|].
  unfold registry_after. cbn [fold_left]. apply IH.
  - apply register_unique; [assumption|].
    cbn [collision_free] in Hok |- *. apply andb_true_iff in Hok as [Hr _].
    now rewrite Hr.
  - cbn [collision_free] in Hok. now apply andb_true_iff in Hok as [_ Hrest].
Qed.

(** Every native tool has a descriptor, so the first half of the test
    in [add_mcp_server] never finds a name its second half would miss. *)
Lemma register_batch_listed server_name tool_prefix tools self :
  natives_listed self ->
  natives_listed (register_batch server_name tool_prefix tools self).
Proof.
  revert self. induction tools as [|tool rest IH]; intros self Hinv; [exact Hinv|].
  unfold register_batch. cbn [fold_left]. apply IH.
  rewrite register_tool_eq. unfold state_of. cbn [fst snd].
  intros n Hn. rewrite append_tool_names. apply elem_of_app. left.
  apply Hinv, Hn.
Qed.

Lemma register_listed w r self :
  natives_listed self -> natives_listed (state_of (register w r self)).
Proof.
  intros Hinv.
  destruct r as [name description parameters function
                | server_name command args tool_prefix]; cbn [register].
  - rewrite add_native_tool_eq. unfold state_of. cbn [fst snd].
    intros n Hn. rewrite append_tool_names. cbn in Hn |- *.
    apply elem_of_app. destruct (decide (name = n)) as [->|Hne].
    + right. apply list_elem_of_singleton. reflexivity.
    + left. apply Hinv. now rewrite lookup_insert_ne in Hn.
  - rewrite add_mcp_server_eq.
    destruct (MCPServerConnection.connect w _) as [[[[]|e] server] ev];
      unfold state_of; cbn [fst snd]; [|assumption].
    apply register_batch_listed. exact Hinv.
Qed.

Lemma registry_after_listed w rs :
  natives_listed (registry_after w rs HybridToolSystem.__init__).
Proof.
  assert (Hgen : forall self, natives_listed self ->
                              natives_listed (registry_after w rs self)).
  { induction rs as [|r rest IH]; intros self Hinv; [exact Hinv|].
    unfold registry_after. cbn [fold_left]. apply IH, register_listed, Hinv. }
  apply Hgen. intros n [f Hf]. cbn in Hf. now rewrite lookup_empty in Hf.
Qed.

(** ** Uniqueness of names (C1) *)

(** C1, as stated, fails: the same native name registered twice leaves
    two descriptors named ["echo"] in [all_tools]. *)
Lemma duplicate_native_names :
  ~ NoDup (registered_names
             (registry_after (Examples.calm [] []) Examples.twice
                             HybridToolSystem.__init__)).
Proof.
  assert (Hnames : registered_names
                     (registry_after (Examples.calm [] []) Examples.twice
                                     HybridToolSystem.__init__)
                   = ["echo"; "echo"]) by (vm_compute; reflexivity).
  rewrite Hnames. intros Hnd. apply NoDup_cons in Hnd as [Hnot _].
  apply Hnot. left.
Qed.

(** C1, amended: for every sequence of native and remote registrations,
    in any order, in which each native registration uses a name that is
    not yet taken and each remote tool whose first candidate is taken
    finds its fallback candidate free, no two descriptors of the
    registry have the same name. *)
Theorem registry_names_unique (w : World) (rs : list Registration) :
  collision_free w rs HybridToolSystem.__init__ = true ->
  NoDup (registered_names (registry_after w rs HybridToolSystem.__init__)).
Proof. intros Hok. apply registry_after_unique; [apply NoDup_nil_2 | exact Hok]. Qed.

Lemma registry_names_unique_witness :
  collision_free (Examples.calm [Examples.tool "add_numbers"] []) Examples.scenario
                 HybridToolSystem.__init__ = true
  /\ NoDup (registered_names
              (registry_after (Examples.calm [Examples.tool "add_numbers"] [])
                              Examples.scenario HybridToolSystem.__init__)).
Proof.
  split; [vm_compute; reflexivity|].
  apply (registry_names_unique (Examples.calm [Examples.tool "add_numbers"] [])
                               Examples.scenario).
  vm_compute; reflexivity.
Defined.

(** ** The fallback policy (C2) *)

(** The scenario of the specification: the remote [add_numbers] is
    registered as [calc_add_numbers], and the registry has two entries. *)
Lemma scenario_add_numbers :
  registered_names
    (registry_after (Examples.calm [Examples.tool "add_numbers"] [])
                    Examples.scenario HybridToolSystem.__init__)
  = ["add_numbers"; "calc_add_numbers"].
Proof. vm_compute; reflexivity. Qed.

(** Whenever both candidates of a remote tool are taken, the tool is
    registered all the same, under a name the registry already has. *)
Lemma register_tool_both_taken self server_name tool_prefix tool :
  name_taken self (first_candidate tool_prefix tool) = true ->
  fallback_candidate server_name tool ∈ registered_names self ->
  result_of (register_tool server_name tool_prefix tool self) = Return tt
  /\ ~ NoDup (registered_names
                (state_of (register_tool server_name tool_prefix tool self))).
Proof.
  intros Hfirst Hfallback. rewrite register_tool_eq.
  unfold result_of, state_of. cbn [fst snd]. split; [reflexivity|].
  rewrite append_tool_names. cbn [fn_name remote_def].
  rewrite resolve_name_cases, Hfirst. intros Hnd.
  apply NoDup_app in Hnd as (_ & Hdisjoint & _).
  apply (Hdisjoint _ Hfallback). apply list_elem_of_singleton. reflexivity.
Qed.

(** C2: where the claim asks for a failure, the code registers.  With a
    native [get] in place, the server ["srv"] lists [srv_get] and [get]:
    [srv_get] takes its own name, [get] falls back to [srv_get], which
    is taken; [add_mcp_server] returns normally and the registry holds
    [srv_get] twice. *)
Theorem fallback_collision_is_registered :
  result_of (add_mcp_server (Examples.calm Examples.clash_tools [])
                            "srv" "python" ["srv.py"] None Examples.get_only)
  = Return tt
  /\ registered_names
       (state_of (add_mcp_server (Examples.calm Examples.clash_tools [])
                                 "srv" "python" ["srv.py"] None Examples.get_only))
     = ["get"; "srv_get"; "srv_get"].
Proof. split; vm_compute; reflexivity. Qed.

(** ** Native registration (C6) *)

(** C6, as stated, fails: a second native registration under the name
    ["echo"] returns normally, replaces the function and adds a second
    descriptor. *)
Lemma second_native_registration_succeeds :
  "echo" ∈ registered_names Examples.echo_once
  /\ result_of (add_native_tool "echo" "second" empty_schema Examples.seven
                                Examples.echo_once) = Return tt
  /\ registered_names
       (state_of (add_native_tool "echo" "second" empty_schema Examples.seven
                                  Examples.echo_once))
     = ["echo"; "echo"].
Proof.
  split; [|split]; try (vm_compute; reflexivity).
  assert (Hnames : registered_names Examples.echo_once = ["echo"])
    by (vm_compute; reflexivity).
  rewrite Hnames. left.
Qed.

(** C6, amended: [add_native_tool] never fails and never renames.  Also
    when the requested name is already taken it returns normally, binds
    exactly that name to the new function, leaves every other native
    binding alone and appends one descriptor under exactly that name. *)
Theorem add_native_tool_taken_name
        (name description : string) (parameters : json) (function : Callable)
        (self : HybridToolSystem.t) :
  name_taken self name = true ->
  result_of (add_native_tool name description parameters function self) = Return tt
  /\ native_tools (state_of (add_native_tool name description parameters function self))
     !! name = Some function
  /\ (forall other, other <> name ->
        native_tools (state_of (add_native_tool name description parameters function self))
        !! other = native_tools self !! other)
  /\ all_tools (state_of (add_native_tool name description parameters function self))
     = all_tools self
       ++ [{| fn_name := name; fn_description := description;
              fn_parameters := parameters; fn_mcp := None |}]
  /\ mcp_servers (state_of (add_native_tool name description parameters function self))
     = mcp_servers self.
Proof.
  intros _. rewrite add_native_tool_eq. unfold result_of, state_of. cbn.
  repeat split.
  - apply lookup_insert_eq.
  - intros other Hne. now apply lookup_insert_ne.
Qed.

Lemma add_native_tool_taken_name_witness :
  name_taken Examples.echo_once "echo" = true
  /\ result_of (add_native_tool "echo" "second" empty_schema Examples.seven
                                Examples.echo_once) = Return tt.
Proof.
  split; [vm_compute; reflexivity|].
  apply (add_native_tool_taken_name "echo" "second" empty_schema Examples.seven
                                    Examples.echo_once).
  vm_compute; reflexivity.
Defined.

(** ** Failed attach (C7) *)

(** C7: when [connect] raises (the transport, the session, [initialize]
    or [list_tools] failed), [add_mcp_server] raises the same exception
    and the system is what it was: no entry in [mcp_servers], no
    descriptor in [all_tools]. *)
Theorem failed_attach_changes_nothing
        (w : World) (server_name command : string) (args : list string)
        (tool_prefix : option string) (self : HybridToolSystem.t) (e : exn) :
  result_of (MCPServerConnection.connect w
               (MCPServerConnection.__init__ server_name command args)) = Raise e ->
  result_of (add_mcp_server w server_name command args tool_prefix self) = Raise e
  /\ state_of (add_mcp_server w server_name command args tool_prefix self) = self.
Proof.
  intros Hfail. rewrite add_mcp_server_eq. unfold result_of, state_of in *.
  destruct (MCPServerConnection.connect w _) as [[[[]|e'] server] ev]; cbn in *.
  - discriminate.
  - split; [assumption | reflexivity].
Qed.

Lemma failed_attach_changes_nothing_witness :
  result_of (MCPServerConnection.connect Examples.no_listing
               (MCPServerConnection.__init__ "srv" "python" ["srv.py"]))
  = Raise (OtherError "Connection closed")
  /\ state_of (add_mcp_server Examples.no_listing "srv" "python" ["srv.py"] None
                              Examples.get_only)
     = Examples.get_only.
Proof.
  split; [reflexivity|].
  apply (failed_attach_changes_nothing Examples.no_listing "srv" "python" ["srv.py"]
           None Examples.get_only (OtherError "Connection closed")).
  reflexivity.
Defined.

(** ** Descriptions of remote tools (C10) *)

Lemma append_assoc (a b c : string) : (a +:+ b) +:+ c = a +:+ (b +:+ c).
Proof.
  induction a as [|ch a IH]; [reflexivity|].
  rewrite !append_cons. f_equal. exact IH.
Qed.

Lemma remote_def_tagged server_name name tool :
  tagged_for server_name tool (remote_def server_name name tool).
Proof.
  assert (Hdesc : fn_description (remote_def server_name name tool)
                  = mcp_tag server_name +:+ Tool.description tool).
  { unfold mcp_tag. cbn [remote_def fn_description]. now rewrite !append_assoc. }
  split; [exact Hdesc|]. split; [|reflexivity].
  rewrite Hdesc. apply append_nonempty_neq. unfold mcp_tag. cbn. discriminate.
Qed.

Lemma register_batch_cons server_name tool_prefix tool rest self :
  register_batch server_name tool_prefix (tool :: rest) self
  = register_batch server_name tool_prefix rest
      (append_tool (remote_def server_name
                      (resolve_name self server_name tool_prefix tool) tool) self).
Proof. reflexivity. Qed.

Lemma register_batch_defs server_name tool_prefix tools self :
  exists defs,
    all_tools (register_batch server_name tool_prefix tools self)
    = all_tools self ++ defs
    /\ Forall2 (tagged_for server_name) tools defs.
Proof.
  revert self. induction tools as [|tool rest IH]; intros self.
  - exists []. split; [now rewrite app_nil_r | constructor].
  - rewrite register_batch_cons.
    destruct (IH (append_tool (remote_def server_name
                    (resolve_name self server_name tool_prefix tool) tool) self))
      as (defs & Hall & Htag).
    exists (remote_def server_name
              (resolve_name self server_name tool_prefix tool) tool :: defs).
    split.
    + rewrite Hall. cbn. now rewrite <- app_assoc.
    + constructor; [apply remote_def_tagged | exact Htag].
Qed.

(** C10: after a successful [add_mcp_server], [all_tools] has grown by
    one descriptor per tool the server listed, in order; each carries
    the tool's description behind ["[MCP:{server_name}] "], which is
    never the original description, and the server and original name. *)
Theorem remote_descriptions_are_tagged
        (w : World) (server_name command : string) (args : list string)
        (tool_prefix : option string) (self : HybridToolSystem.t)
        (tools : list Tool.t) :
  result_of (add_mcp_server w server_name command args tool_prefix self) = Return tt ->
  w_list_tools w {| command := command; args := args |} = Return tools ->
  exists defs,
    all_tools (state_of (add_mcp_server w server_name command args tool_prefix self))
    = all_tools self ++ defs
    /\ Forall2 (tagged_for server_name) tools defs.
Proof.
  intros Hok Hlist. rewrite add_mcp_server_eq in *.
  destruct (MCPServerConnection.connect w _) as [[r server] ev] eqn:Hconn.
  destruct r as [[]|e]; unfold result_of, state_of in *; cbn in Hok |- *;
    [|discriminate].
  apply connect_returns in Hconn as (Htools & _ & _); [|reflexivity].
  cbn in Htools. rewrite Hlist in Htools. injection Htools as <-.
  apply (register_batch_defs server_name tool_prefix tools
           (set_mcp_servers (dict_set (mcp_servers self) server_name server) self)).
Qed.

Lemma remote_descriptions_are_tagged_witness :
  result_of (add_mcp_server (Examples.calm Examples.clash_tools []) "srv" "python"
                            ["srv.py"] (Some "mcp") Examples.get_only) = Return tt
  /\ w_list_tools (Examples.calm Examples.clash_tools [])
                  {| command := "python"; args := ["srv.py"] |}
     = Return Examples.clash_tools
  /\ exists defs,
       all_tools (state_of (add_mcp_server (Examples.calm Examples.clash_tools [])
                              "srv" "python" ["srv.py"] (Some "mcp") Examples.get_only))
       = all_tools Examples.get_only ++ defs
       /\ Forall2 (tagged_for "srv") Examples.clash_tools defs.
Proof.
  split; [reflexivity|]. split; [reflexivity|].
  apply (remote_descriptions_are_tagged (Examples.calm Examples.clash_tools [])
           "srv" "python" ["srv.py"] (Some "mcp") Examples.get_only
           Examples.clash_tools); reflexivity.
Defined.

(** ** Dispatch (C8, C9) *)

Lemma find_absent {A} (f : A -> bool) (l : list A) :
  (forall x, x ∈ l -> f x = false) -> find f l = None.
Proof.
  induction l as [|x l IH]; intros Hall; [reflexivity|]. cbn.
  rewrite (Hall x) by left. apply IH. intros y Hy. apply Hall. now right.
Qed.

Lemma execute_tool_eq w tool_name arguments self :
  execute_tool w tool_name arguments self
  = match native_tools self !! tool_name with
    | Some function =>
        (str_result (function arguments), self, [EvNative tool_name arguments])
    | None =>
        match find (is_mcp_tool_named tool_name) (all_tools self) with
        | Some {| fn_mcp := Some meta |} =>
            call_on_server w (_mcp_server meta) (_mcp_original_name meta) arguments self
        | _ => (Raise (ValueError ("Unknown tool: " +:+ tool_name)), self, [])
        end
    end.
Proof.
  unfold execute_tool, bind, gets. cbv beta iota.
  destruct (native_tools self !! tool_name) as [function|].
  - unfold await, ret. destruct (function arguments); reflexivity.
  - cbv beta iota.
    destruct (find (is_mcp_tool_named tool_name) (all_tools self))
      as [[n d p [meta|]]|]; cbv beta iota;
      try reflexivity.
    destruct (call_on_server w _ _ arguments self) as [[r s'] ev]. reflexivity.
Qed.

(** C8: a name that is neither a native tool nor the name of any
    descriptor makes [execute_tool] raise [ValueError("Unknown tool:
    {tool_name}")]; nothing is awaited and the system is unchanged. *)
Theorem unknown_tool_raises
        (w : World) (self : HybridToolSystem.t) (tool_name : string)
        (arguments : Arguments_) :
  native_tools self !! tool_name = None ->
  tool_name ∉ registered_names self ->
  execute_tool w tool_name arguments self
  = (Raise (ValueError ("Unknown tool: " +:+ tool_name)), self, []).
Proof.
  intros Hnative Hnames. rewrite execute_tool_eq, Hnative.
  rewrite find_absent; [reflexivity|].
  intros tool Hin. unfold is_mcp_tool_named.
  apply andb_false_iff. left. apply String.eqb_neq. intros Heq.
  apply Hnames. unfold registered_names. rewrite <- Heq.
  apply list_elem_of_fmap_2, Hin.
Qed.

Lemma unknown_tool_raises_witness :
  native_tools Examples.get_only !! "nonexistent" = None
  /\ ("nonexistent" ∉ registered_names Examples.get_only)
  /\ execute_tool (Examples.calm [] []) "nonexistent" [] Examples.get_only
     = (Raise (ValueError "Unknown tool: nonexistent"), Examples.get_only, []).
Proof.
  assert (Hnames : "nonexistent" ∉ registered_names Examples.get_only).
  { apply (bool_decide_unpack _). vm_compute. reflexivity. }
  split; [vm_compute; reflexivity|]. split; [exact Hnames|].
  apply (unknown_tool_raises (Examples.calm [] []) Examples.get_only "nonexistent" []);
    [vm_compute; reflexivity | exact Hnames].
Defined.

(** C9: a name bound in [native_tools] is served by its native function
    even when a remote descriptor has the same name: the answer is [str]
    of what the function returned (or its exception), and the only
    event is the native call. *)
Theorem native_tool_takes_precedence
        (w : World) (self : HybridToolSystem.t) (tool_name : string)
        (arguments : Arguments_) (function : Callable) :
  native_tools self !! tool_name = Some function ->
  tool_name ∈ remote_names self ->
  execute_tool w tool_name arguments self
  = (str_result (function arguments), self, [EvNative tool_name arguments]).
Proof.
  intros Hnative _. rewrite execute_tool_eq, Hnative. reflexivity.
Qed.

Lemma native_tool_takes_precedence_witness :
  native_tools Examples.lookup_twice !! "lookup" = Some Examples.seven
  /\ ("lookup" ∈ remote_names Examples.lookup_twice)
  /\ execute_tool (Examples.calm [Examples.tool "lookup"] [TextContent "remote"])
                  "lookup" [] Examples.lookup_twice
     = (Return "seven", Examples.lookup_twice, [EvNative "lookup" []]).
Proof.
  assert (Hremote : "lookup" ∈ remote_names Examples.lookup_twice).
  { apply (bool_decide_unpack _). vm_compute. reflexivity. }
  split; [vm_compute; reflexivity|]. split; [exact Hremote|].
  apply (native_tool_takes_precedence
           (Examples.calm [Examples.tool "lookup"] [TextContent "remote"])
           Examples.lookup_twice "lookup" [] Examples.seven);
    [vm_compute; reflexivity | exact Hremote].
Defined.

(** ** Shutdown (C3) *)

Section Shutdown.
Variable w : World.

Lemma close_each_clean servers :
  Forall (closes_cleanly w) servers ->
  close_each w servers
  = (Return tt, map (closed_entry w) servers, flat_map (close_trace w) servers).
Proof.
  induction 1 as [|[k server] rest Hhead _ IH]; [reflexivity|].
  unfold closes_cleanly, result_of in Hhead. cbn [snd] in Hhead.
  cbn [close_each map flat_map]. unfold closed_entry at 1, close_trace at 1.
  unfold state_of, trace_of. cbn [fst snd].
  destruct (MCPServerConnection.close w server) as [[r server'] ev].
  cbn [fst snd] in Hhead |- *. subst r. now rewrite IH.
Qed.

Lemma close_each_stops pre k server post e :
  Forall (closes_cleanly w) pre ->
  result_of (MCPServerConnection.close w server) = Raise e ->
  close_each w (pre ++ (k, server) :: post)
  = (Raise e,
     map (closed_entry w) pre ++ closed_entry w (k, server) :: post,
     flat_map (close_trace w) pre ++ close_trace w (k, server)).
Proof.
  intros Hpre Hfail. induction Hpre as [|[k0 server0] rest Hhead _ IH].
  - cbn [app map flat_map close_each].
    unfold closed_entry, close_trace, state_of, trace_of, result_of in *.
    cbn [fst snd] in *.
    destruct (MCPServerConnection.close w server) as [[r server'] ev].
    cbn [fst snd] in Hfail |- *. now subst r.
  - unfold closes_cleanly, result_of in Hhead. cbn [snd] in Hhead.
    cbn [app close_each map flat_map].
    unfold closed_entry at 1, close_trace at 1. unfold state_of, trace_of.
    cbn [fst snd].
    destruct (MCPServerConnection.close w server0) as [[r server0'] ev].
    cbn [fst snd] in Hhead |- *. subst r. rewrite IH.
    now rewrite app_assoc.
Qed.

(** When no [server.close()] raises, every server is closed and
    [close] returns. *)
Lemma close_all_clean self :
  Forall (closes_cleanly w) (mcp_servers self) ->
  close w self
  = (Return tt,
     set_mcp_servers (map (closed_entry w) (mcp_servers self)) self,
     flat_map (close_trace w) (mcp_servers self)).
Proof. intros Hclean. unfold close. now rewrite close_each_clean. Qed.

End Shutdown.

(** C3, as stated, fails: with servers ["a"] and ["b"] attached and the
    closing of ["a"] failing, [close] raises that one exception; the
    only [aclose] awaited is the one of ["a"], and ["b"] is still open. *)
Lemma close_abandons_later_servers :
  result_of (close Examples.flaky_close Examples.two_servers)
  = Raise (OtherError "Broken pipe")
  /\ trace_of (close Examples.flaky_close Examples.two_servers)
     = [EvAclose {| command := "flaky"; args := [] |}]
  /\ lifecycle_of
       <$> dict_get (mcp_servers (state_of (close Examples.flaky_close
                                                  Examples.two_servers))) "b"
     = Some Open.
Proof. repeat split; vm_compute; reflexivity. Qed.

(** C3, amended: [close] closes the servers in the order they were
    attached and stops at the first failure.  That exception is raised at
    once, alone; the servers before it, and the failing one, have been
    closed; the servers after it are not attempted and stay as they
    were. *)
Theorem close_stops_at_first_failure
        (w : World) (self : HybridToolSystem.t)
        (pre post : list (string * MCPServerConnection.t))
        (k : string) (server : MCPServerConnection.t) (e : exn) :
  mcp_servers self = pre ++ (k, server) :: post ->
  Forall (closes_cleanly w) pre ->
  result_of (MCPServerConnection.close w server) = Raise e ->
  close w self
  = (Raise e,
     set_mcp_servers (map (closed_entry w) pre ++ closed_entry w (k, server) :: post)
                     self,
     flat_map (close_trace w) pre ++ close_trace w (k, server)).
Proof.
  intros Hservers Hpre Hfail. unfold close. rewrite Hservers.
  now rewrite (close_each_stops w pre k server post e Hpre Hfail).
Qed.

Lemma close_stops_at_first_failure_witness :
  mcp_servers Examples.three_servers
  = [("first", Examples.server_of "first" "steady")]
      ++ ("a", Examples.server_of "a" "flaky")
      :: [("b", Examples.server_of "b" "steady")]
  /\ Forall (closes_cleanly Examples.flaky_close)
            [("first", Examples.server_of "first" "steady")]
  /\ result_of (MCPServerConnection.close Examples.flaky_close
                  (Examples.server_of "a" "flaky"))
     = Raise (OtherError "Broken pipe")
  /\ close Examples.flaky_close Examples.three_servers
     = (Raise (OtherError "Broken pipe"),
        set_mcp_servers
          (map (closed_entry Examples.flaky_close)
               [("first", Examples.server_of "first" "steady")]
           ++ closed_entry Examples.flaky_close ("a", Examples.server_of "a" "flaky")
           :: [("b", Examples.server_of "b" "steady")])
          Examples.three_servers,
        flat_map (close_trace Examples.flaky_close)
                 [("first", Examples.server_of "first" "steady")]
        ++ close_trace Examples.flaky_close ("a", Examples.server_of "a" "flaky")).
Proof.
  assert (Hpre : Forall (closes_cleanly Examples.flaky_close)
                        [("first", Examples.server_of "first" "steady")]).
  { repeat constructor. }
  split; [vm_compute; reflexivity|]. split; [exact Hpre|].
  split; [vm_compute; reflexivity|].
  apply (close_stops_at_first_failure Examples.flaky_close Examples.three_servers
           [("first", Examples.server_of "first" "steady")]
           [("b", Examples.server_of "b" "steady")]
           "a" (Examples.server_of "a" "flaky") (OtherError "Broken pipe"));
    [vm_compute; reflexivity | exact Hpre | vm_compute; reflexivity].
Defined.

(** ** Result text (C4) *)

Lemma texts_of_app (a b : list ContentItem) :
  MCPServerConnection.texts_of (a ++ b)
  = MCPServerConnection.texts_of a ++ MCPServerConnection.texts_of b.
Proof.
  induction a as [|[text|] a IH]; cbn; [reflexivity | now rewrite IH | exact IH].
Qed.

(** [texts_of] keeps the texts, in order, and nothing else. *)
Lemma texts_of_omap (content : list ContentItem) :
  MCPServerConnection.texts_of content
  = omap (fun c => match c with TextContent text => Some text | OtherContent => None end)
         content.
Proof. induction content as [|[text|] rest IH]; cbn; [reflexivity | now rewrite IH | exact IH]. Qed.

Lemma call_tool_eq w tool_name arguments self :
  MCPServerConnection.call_tool w tool_name arguments self
  = match MCPServerConnection.session self with
    | None =>
        (Raise (AttributeError "'NoneType' object has no attribute 'call_tool'"),
         self, [])
    | Some sess =>
        (joined_text (w_call_tool w (peer sess)
                        (MCPServerConnection.session_entered self) tool_name arguments),
         self, [EvCallTool (peer sess) tool_name arguments])
    end.
Proof.
  unfold MCPServerConnection.call_tool, bind, gets. cbv beta iota.
  destruct (MCPServerConnection.session self) as [sess|]; [|reflexivity].
  unfold await, ret. cbv beta iota.
  destruct (w_call_tool w _ _ _ _); reflexivity.
Qed.

(** The sibling in [langchain_mcp_dynamic.py] does what the claim says:
    the texts joined by newlines, and ["No result"] when there is none. *)
Lemma call_mcp_tool_normalises w self sess tool_name kwargs content :
  MCPToolWrapper.session self = Some sess ->
  w_call_tool w (peer sess) (MCPToolWrapper.session_entered self) tool_name kwargs
  = Return content ->
  result_of (MCPToolWrapper.call_mcp_tool w tool_name kwargs self)
  = Return (match MCPServerConnection.texts_of content with
            | [] => "No result"
            | _ :: _ => join newline (MCPServerConnection.texts_of content)
            end)
  /\ (MCPServerConnection.texts_of content = [] ->
      result_of (MCPToolWrapper.call_mcp_tool w tool_name kwargs self)
      <> Return "").
Proof.
  intros Hsess Hanswer.
  assert (Hres : result_of (MCPToolWrapper.call_mcp_tool w tool_name kwargs self)
                 = Return (match MCPServerConnection.texts_of content with
                           | [] => "No result"
                           | _ :: _ => join newline (MCPServerConnection.texts_of content)
                           end)).
  { unfold MCPToolWrapper.call_mcp_tool, bind, gets, await, ret, result_of.
    cbv beta iota. rewrite Hsess. cbv beta iota. rewrite Hanswer. reflexivity. }
  split; [exact Hres|]. intros Hnone. rewrite Hres, Hnone. discriminate.
Qed.

(** With at least one text, [MCPServerConnection.call_tool] returns the
    texts joined by newlines. *)
Lemma call_tool_joins_texts w self sess tool_name arguments content :
  MCPServerConnection.session self = Some sess ->
  w_call_tool w (peer sess) (MCPServerConnection.session_entered self)
              tool_name arguments = Return content ->
  result_of (MCPServerConnection.call_tool w tool_name arguments self)
  = Return (join newline (MCPServerConnection.texts_of content)).
Proof.
  intros Hsess Hanswer. rewrite call_tool_eq, Hsess, Hanswer. reflexivity.
Qed.

(** C4: [MCPServerConnection.call_tool] has no sentinel.  When the
    result holds no text item, whatever else it holds, the call returns
    the empty string. *)
Theorem call_tool_without_text_is_empty
        (w : World) (self : MCPServerConnection.t) (sess : ClientSession)
        (tool_name : string) (arguments : Arguments_) (content : list ContentItem) :
  MCPServerConnection.session self = Some sess ->
  w_call_tool w (peer sess) (MCPServerConnection.session_entered self)
              tool_name arguments = Return content ->
  MCPServerConnection.texts_of content = [] ->
  result_of (MCPServerConnection.call_tool w tool_name arguments self) = Return "".
Proof.
  intros Hsess Hanswer Hnone.
  rewrite (call_tool_joins_texts w self sess tool_name arguments content Hsess Hanswer).
  now rewrite Hnone.
Qed.

Lemma call_tool_without_text_is_empty_witness :
  MCPServerConnection.session Examples.connected
  = Some {| peer := {| command := "python"; args := ["srv.py"] |} |}
  /\ w_call_tool (Examples.calm [] [OtherContent; OtherContent])
                 {| command := "python"; args := ["srv.py"] |}
                 (MCPServerConnection.session_entered Examples.connected)
                 "get_image" []
     = Return [OtherContent; OtherContent]
  /\ MCPServerConnection.texts_of [OtherContent; OtherContent] = []
  /\ result_of (MCPServerConnection.call_tool
                  (Examples.calm [] [OtherContent; OtherContent])
                  "get_image" [] Examples.connected)
     = Return "".
Proof.
  split; [reflexivity|]. split; [reflexivity|]. split; [reflexivity|].
  apply (call_tool_without_text_is_empty
           (Examples.calm [] [OtherContent; OtherContent]) Examples.connected
           {| peer := {| command := "python"; args := ["srv.py"] |} |}
           "get_image" [] [OtherContent; OtherContent]); reflexivity.
Defined.

(** ** Lifecycle of a connection (C5) *)

(** [call_tool] never touches the connection, whatever its state. *)
Lemma call_tool_keeps_connection w tool_name arguments self :
  state_of (MCPServerConnection.call_tool w tool_name arguments self) = self.
Proof.
  rewrite call_tool_eq. destruct (MCPServerConnection.session self); reflexivity.
Qed.

(** A successful [connect] opens the connection, whatever it was. *)
Lemma connect_opens w self :
  result_of (MCPServerConnection.connect w self) = Return tt ->
  lifecycle_of (state_of (MCPServerConnection.connect w self)) = Open.
Proof.
  intros Hok.
  destruct (MCPServerConnection.connect w self) as [[r self'] ev] eqn:Hconn.
  apply connect_returns in Hconn as (_ & Hsess & Hstack); [|exact Hok].
  unfold lifecycle_of, MCPServerConnection.session_entered, state_of. cbn [fst snd].
  now rewrite Hsess, Hstack.
Qed.

(** [close] never opens: it takes an open connection to [Closed] and
    leaves the others where they are. *)
Lemma close_lifecycle w self :
  lifecycle_of (state_of (MCPServerConnection.close w self))
  = match lifecycle_of self with
    | Unopened => Unopened
    | Open | Closed => Closed
    end.
Proof.
  unfold MCPServerConnection.close, bind, gets, modify, await, ret, state_of,
    lifecycle_of, MCPServerConnection.session_entered.
  destruct self as [n p [sess|] [[|c ctxs]|] ts]; cbn;
    try reflexivity.
  destruct c, (existsb _ ctxs); reflexivity.
Qed.

(** C5, as stated, fails: nothing keeps a closed connection closed.  A
    connection that was opened and closed is open again after a second
    [connect]. *)
Lemma closed_connection_reopens :
  lifecycle_of Examples.fresh_connection = Unopened
  /\ lifecycle_of Examples.connected = Open
  /\ lifecycle_of Examples.closed = Closed
  /\ lifecycle_of Examples.reconnected = Open.
Proof. repeat split. Qed.

(** C5, amended: [call_tool] checks no state and reconnects never.
    Outside [Open] it leaves the connection as it is; before the session
    exists it raises [AttributeError] without awaiting anything; after
    [close] it awaits the one call on the closed session object and
    returns or raises what the library answers. *)
Theorem call_tool_outside_open
        (w : World) (self : MCPServerConnection.t) (tool_name : string)
        (arguments : Arguments_) :
  lifecycle_of self <> Open ->
  state_of (MCPServerConnection.call_tool w tool_name arguments self) = self
  /\ match MCPServerConnection.session self with
     | None =>
         result_of (MCPServerConnection.call_tool w tool_name arguments self)
         = Raise (AttributeError "'NoneType' object has no attribute 'call_tool'")
         /\ trace_of (MCPServerConnection.call_tool w tool_name arguments self) = []
     | Some sess =>
         result_of (MCPServerConnection.call_tool w tool_name arguments self)
         = joined_text (w_call_tool w (peer sess) false tool_name arguments)
         /\ trace_of (MCPServerConnection.call_tool w tool_name arguments self)
            = [EvCallTool (peer sess) tool_name arguments]
     end.
Proof.
  intros Hstate. split; [apply call_tool_keeps_connection|].
  rewrite call_tool_eq. unfold lifecycle_of in Hstate.
  destruct (MCPServerConnection.session self) as [sess|]; [|split; reflexivity].
  destruct (MCPServerConnection.session_entered self); [congruence|].
  split; reflexivity.
Qed.

Lemma call_tool_outside_open_witness :
  lifecycle_of Examples.fresh_connection <> Open
  /\ state_of (MCPServerConnection.call_tool (Examples.calm [] [TextContent "7"])
                 "get_hundred" [] Examples.fresh_connection)
     = Examples.fresh_connection
  /\ result_of (MCPServerConnection.call_tool (Examples.calm [] [TextContent "7"])
                  "get_hundred" [] Examples.fresh_connection)
     = Raise (AttributeError "'NoneType' object has no attribute 'call_tool'")
  /\ trace_of (MCPServerConnection.call_tool (Examples.calm [] [TextContent "7"])
                 "get_hundred" [] Examples.fresh_connection)
     = [].
Proof.
  assert (Hstate : lifecycle_of Examples.fresh_connection <> Open)
    by (vm_compute; discriminate).
  split; [exact Hstate|].
  exact (call_tool_outside_open (Examples.calm [] [TextContent "7"])
           Examples.fresh_connection "get_hundred" [] Hstate).
Defined.

(** * The rest of the system *)

(** ** Insertion-ordered dictionaries *)

Section DictFacts.
Context {V : Type}.
Implicit Types (d : list (string * V)) (k : string) (v : V).

Lemma dict_get_set_eq d k v : dict_get (dict_set d k v) k = Some v.
Proof.
  induction d as [|[k' v'] d IH]; cbn.
  - now rewrite String.eqb_refl.
  - destruct (String.eqb k' k) eqn:Hk; cbn; rewrite Hk; [reflexivity | exact IH].
Qed.

Lemma dict_get_set_ne d k k' v :
  k <> k' -> dict_get (dict_set d k v) k' = dict_get d k'.
Proof.
  intros Hne. induction d as [|[k0 v0] d IH]; cbn.
  - apply String.eqb_neq in Hne. now rewrite Hne.
  - destruct (String.eqb k0 k) eqn:Hk; cbn.
    + apply String.eqb_eq in Hk. subst k0.
      apply String.eqb_neq in Hne. now rewrite Hne.
    + now rewrite IH.
Qed.

Lemma dict_set_same d k v : dict_get d k = Some v -> dict_set d k v = d.
Proof.
  induction d as [|[k' v'] d IH]; cbn; [discriminate|].
  destruct (String.eqb k' k) eqn:Hk.
  - now intros [= ->].
  - intros Hget. now rewrite IH.
Qed.

Lemma dict_keys_set d k v :
  dict_keys (dict_set d k v)
  = match dict_get d k with
    | Some _ => dict_keys d
    | None => dict_keys d ++ [k]
    end.
Proof.
  induction d as [|[k' v'] d IH]; cbn; [reflexivity|].
  destruct (String.eqb k' k) eqn:Hk; cbn; [reflexivity|].
  unfold dict_keys in IH. rewrite IH. now destruct (dict_get d k).
Qed.

Lemma dict_get_elem d k v : dict_get d k = Some v -> (k, v) ∈ d.
Proof.
  induction d as [|[k' v'] d IH]; cbn; [discriminate|].
  destruct (String.eqb k' k) eqn:Hk.
  - apply String.eqb_eq in Hk. subst k'. intros [= ->]. left.
  - intros Hget. right. now apply IH.
Qed.

Lemma dict_set_Forall (P : string * V -> Prop) d k v :
  Forall P d -> P (k, v) -> Forall P (dict_set d k v).
Proof.
  intros Hall Hnew. induction Hall as [|[k' v'] d Hhead Htail IH]; cbn.
  - now constructor.
  - destruct (String.eqb k' k) eqn:Hk.
    + apply String.eqb_eq in Hk. subst k'. now constructor.
    + now constructor.
Qed.

End DictFacts.

(** ** Routing of remote calls *)

Lemma find_first {A} (f : A -> bool) (before after : list A) (x : A) :
  (forall y, y ∈ before -> f y = false) -> f x = true ->
  find f (before ++ x :: after) = Some x.
Proof.
  intros Hbefore Hx. induction before as [|y before IH]; cbn.
  - now rewrite Hx.
  - rewrite (Hbefore y) by left. apply IH. intros z Hz. apply Hbefore. now right.
Qed.

Lemma find_present {A} (f : A -> bool) (l : list A) (x : A) :
  x ∈ l -> f x = true -> exists y, find f l = Some y /\ y ∈ l /\ f y = true.
Proof.
  intros Hin Hx. induction Hin as [x l|x z l Hin IH]; cbn.
  - rewrite Hx. exists x. repeat split; [left | assumption].
  - destruct (f z) eqn:Hz.
    + exists z. repeat split; [left | assumption].
    + destruct (IH Hx) as (y & Hfind & Hy & Hfy). exists y.
      repeat split; [assumption | now right | assumption].
Qed.

Lemma set_mcp_servers_same self : set_mcp_servers (mcp_servers self) self = self.
Proof. now destruct self. Qed.

Lemma call_on_server_found w server_name original_name arguments self server :
  dict_get (mcp_servers self) server_name = Some server ->
  call_on_server w server_name original_name arguments self
  = (result_of (MCPServerConnection.call_tool w original_name arguments server),
     self,
     trace_of (MCPServerConnection.call_tool w original_name arguments server)).
Proof.
  intros Hget. unfold call_on_server. rewrite Hget.
  pose proof (call_tool_keeps_connection w original_name arguments server) as Hkeep.
  destruct (MCPServerConnection.call_tool w original_name arguments server)
    as [[r server'] ev].
  unfold state_of, result_of, trace_of in *. cbn [fst snd] in *. subst server'.
  now rewrite (dict_set_same _ _ _ Hget), set_mcp_servers_same.
Qed.

Lemma execute_tool_found w tool_name arguments self d meta server :
  native_tools self !! tool_name = None ->
  find (is_mcp_tool_named tool_name) (all_tools self) = Some d ->
  fn_mcp d = Some meta ->
  dict_get (mcp_servers self) (_mcp_server meta) = Some server ->
  execute_tool w tool_name arguments self
  = (result_of (MCPServerConnection.call_tool w (_mcp_original_name meta)
                                              arguments server),
     self,
     trace_of (MCPServerConnection.call_tool w (_mcp_original_name meta)
                                             arguments server)).
Proof.
  intros Hnative Hfind Hmeta Hget. rewrite execute_tool_eq, Hnative, Hfind.
  destruct d as [n ds p m]. cbn in Hmeta. subst m.
  now apply call_on_server_found.
Qed.

(** X1: a name that is no native tool goes to the first remote
    descriptor carrying it: the server named there is called with the
    tool's original name, not with the name it was registered under, and
    the system is left as it was. *)
Theorem remote_dispatch_first_match
        (w : World) (self : HybridToolSystem.t) (tool_name : string)
        (arguments : Arguments_) (before after : list ToolDef) (d : ToolDef)
        (meta : McpMeta) (server : MCPServerConnection.t) :
  native_tools self !! tool_name = None ->
  all_tools self = before ++ d :: after ->
  (forall t, t ∈ before -> fn_name t = tool_name -> fn_mcp t = None) ->
  fn_name d = tool_name ->
  fn_mcp d = Some meta ->
  dict_get (mcp_servers self) (_mcp_server meta) = Some server ->
  execute_tool w tool_name arguments self
  = (result_of (MCPServerConnection.call_tool w (_mcp_original_name meta)
                                              arguments server),
     self,
     trace_of (MCPServerConnection.call_tool w (_mcp_original_name meta)
                                             arguments server)).
Proof.
  intros Hnative Hall Hbefore Hname Hmeta Hget.
  apply execute_tool_found with d; try assumption.
  rewrite Hall. apply find_first.
  - intros t Hin. unfold is_mcp_tool_named.
    destruct (String.eqb (fn_name t) tool_name) eqn:Heq; [|reflexivity].
    apply String.eqb_eq in Heq. rewrite (Hbefore t Hin Heq). reflexivity.
  - unfold is_mcp_tool_named. rewrite Hname, String.eqb_refl, Hmeta. reflexivity.
Qed.

Lemma remote_dispatch_first_match_witness :
  native_tools MoreExamples.demo !! "mcp_get_hundred" = None
  /\ all_tools MoreExamples.demo
     = MoreExamples.demo_natives ++ MoreExamples.demo_def :: []
  /\ (forall t, t ∈ MoreExamples.demo_natives ->
                fn_name t = "mcp_get_hundred" -> fn_mcp t = None)
  /\ dict_get (mcp_servers MoreExamples.demo) "simple_server"
     = Some MoreExamples.demo_server
  /\ execute_tool MoreExamples.demo_world "mcp_get_hundred" [] MoreExamples.demo
     = (Return "100", MoreExamples.demo,
        [EvCallTool {| command := "python"; args := ["simple_server.py"] |}
                    "get_hundred" []]).
Proof.
  assert (Hbefore : forall t, t ∈ MoreExamples.demo_natives ->
                              fn_name t = "mcp_get_hundred" -> fn_mcp t = None).
  { intros t Hin _. apply list_elem_of_In in Hin. simpl in Hin.
    destruct Hin as [<-|[<-|[]]]; reflexivity. }
  split; [vm_compute; reflexivity|]. split; [vm_compute; reflexivity|].
  split; [exact Hbefore|]. split; [vm_compute; reflexivity|].
  exact (remote_dispatch_first_match MoreExamples.demo_world MoreExamples.demo
           "mcp_get_hundred" [] MoreExamples.demo_natives [] MoreExamples.demo_def
           {| _mcp_server := "simple_server"; _mcp_original_name := "get_hundred" |}
           MoreExamples.demo_server
           ltac:(vm_compute; reflexivity) ltac:(vm_compute; reflexivity) Hbefore
           ltac:(reflexivity) ltac:(reflexivity) ltac:(vm_compute; reflexivity)).
Defined.

(** ** Systems built by registrations *)

Lemma register_batch_keeps server_name tool_prefix tools self :
  mcp_servers (register_batch server_name tool_prefix tools self) = mcp_servers self
  /\ native_tools (register_batch server_name tool_prefix tools self)
     = native_tools self.
Proof.
  revert self. induction tools as [|tool rest IH]; intros self; [now split|].
  rewrite register_batch_cons.
  destruct (IH (append_tool (remote_def server_name
                  (resolve_name self server_name tool_prefix tool) tool) self))
    as [Hs Hn].
  rewrite Hs, Hn. now split.
Qed.

Lemma connect_is_open w server_name command args r server ev :
  MCPServerConnection.connect w
    (MCPServerConnection.__init__ server_name command args) = (r, server, ev) ->
  r = Return tt ->
  is_open server
  /\ MCPServerConnection.name server = server_name
  /\ MCPServerConnection.server_params server = {| command := command; args := args |}
  /\ w_list_tools w {| command := command; args := args |}
     = Return (MCPServerConnection.tools server).
Proof.
  intros Hconn Hr.
  assert (Hfix : MCPServerConnection.name server = server_name
                 /\ MCPServerConnection.server_params server
                    = {| command := command; args := args |}).
  { revert Hconn.
    unfold MCPServerConnection.connect, bind, modify, gets, await. cbn.
    destruct (w_stdio_client w _) as [[]|e1]; cbn; [|intros [= <- <- <-]; now split].
    destruct (w_client_session w _) as [[]|e2]; cbn; [|intros [= <- <- <-]; now split].
    destruct (w_initialize w _) as [[]|e3]; cbn; [|intros [= <- <- <-]; now split].
    destruct (w_list_tools w _) as [ts|e4]; cbn; intros [= <- <- <-]; now split. }
  destruct Hfix as [Hname Hparams].
  apply connect_returns in Hconn as (Htools & Hsess & Hstack); [|exact Hr].
  cbn in Htools, Hsess. unfold is_open. rewrite Hparams.
  repeat split; assumption.
Qed.

Lemma register_keeps_open w r self :
  servers_open self -> servers_open (state_of (register w r self)).
Proof.
  intros Hopen.
  destruct r as [name description parameters function
                | server_name command args tool_prefix]; cbn [register].
  - rewrite add_native_tool_eq. exact Hopen.
  - rewrite add_mcp_server_eq.
    destruct (MCPServerConnection.connect w _) as [[r server] ev] eqn:Hconn.
    destruct r as [[]|e]; unfold state_of; cbn [fst snd]; [|assumption].
    unfold servers_open.
    rewrite (proj1 (register_batch_keeps server_name tool_prefix _ _)).
    cbn [mcp_servers set_mcp_servers].
    apply dict_set_Forall; [exact Hopen|].
    cbn [snd]. now apply connect_is_open in Hconn as (Ho & _).
Qed.

Lemma register_keeps_known w r self :
  servers_known self -> servers_known (state_of (register w r self)).
Proof.
  intros Hknown.
  destruct r as [name description parameters function
                | server_name command args tool_prefix]; cbn [register].
  - rewrite add_native_tool_eq. unfold state_of. cbn [fst snd].
    intros d meta Hin Hmeta. cbn in Hin |- *.
    apply elem_of_app in Hin as [Hin|Hin]; [now apply Hknown with d|].
    apply list_elem_of_singleton in Hin. subst d. discriminate.
  - rewrite add_mcp_server_eq.
    destruct (MCPServerConnection.connect w _) as [[r server] ev] eqn:Hconn.
    destruct r as [[]|e]; unfold state_of; cbn [fst snd]; [|assumption].
    intros d meta Hin Hmeta.
    rewrite (proj1 (register_batch_keeps server_name tool_prefix _ _)).
    cbn [mcp_servers set_mcp_servers].
    destruct (register_batch_defs server_name tool_prefix
                (MCPServerConnection.tools server)
                (set_mcp_servers (dict_set (mcp_servers self) server_name server) self))
      as (defs & Hall & Htag).
    rewrite Hall in Hin. cbn [all_tools set_mcp_servers] in Hin.
    destruct (decide (server_name = _mcp_server meta)) as [<-|Hne].
    { rewrite dict_get_set_eq. eauto. }
    rewrite dict_get_set_ne by assumption.
    apply elem_of_app in Hin as [Hin|Hin]; [now apply Hknown with d|].
    exfalso. apply list_elem_of_lookup in Hin as (i & Hi).
    destruct (Forall2_lookup_r _ _ _ _ _ Htag Hi) as (tool & _ & _ & _ & Hmcp).
    rewrite Hmcp in Hmeta. injection Hmeta as <-. now apply Hne.
Qed.

Lemma registry_after_wired w rs :
  servers_open (registry_after w rs HybridToolSystem.__init__)
  /\ servers_known (registry_after w rs HybridToolSystem.__init__).
Proof.
  assert (Hgen : forall self, servers_open self -> servers_known self ->
                   servers_open (registry_after w rs self)
                   /\ servers_known (registry_after w rs self)).
  { induction rs as [|r rest IH]; intros self Ho Hk; [now split|].
    unfold registry_after. cbn [fold_left].
    apply IH; [now apply register_keeps_open | now apply register_keeps_known]. }
  apply Hgen.
  - constructor.
  - intros d meta Hin. cbn in Hin. now apply elem_of_nil in Hin.
Qed.

(** X2: in a system built by registrations alone, every remote name
    that no native tool shadows can be executed: the owning connection
    is stored and open, and exactly one [call_tool] goes to its live
    session, under the tool's original name. *)
Theorem registered_remote_tool_is_reachable
        (w : World) (rs : list Registration) (w' : World)
        (tool_name : string) (arguments : Arguments_) :
  native_tools (registry_after w rs HybridToolSystem.__init__) !! tool_name = None ->
  tool_name ∈ remote_names (registry_after w rs HybridToolSystem.__init__) ->
  exists meta server,
    dict_get (mcp_servers (registry_after w rs HybridToolSystem.__init__))
             (_mcp_server meta) = Some server
    /\ is_open server
    /\ execute_tool w' tool_name arguments
                    (registry_after w rs HybridToolSystem.__init__)
       = (joined_text (w_call_tool w' (MCPServerConnection.server_params server) true
                                   (_mcp_original_name meta) arguments),
          registry_after w rs HybridToolSystem.__init__,
          [EvCallTool (MCPServerConnection.server_params server)
                      (_mcp_original_name meta) arguments]).
Proof.
  intros Hnative Hremote.
  destruct (registry_after_wired w rs) as [Hopen Hknown].
  set (self := registry_after w rs HybridToolSystem.__init__) in *.
  unfold remote_names in Hremote.
  apply list_elem_of_fmap in Hremote as (d0 & Hname0 & Hin0).
  apply list_elem_of_filter in Hin0 as [Hmcp0 Hin0].
  assert (Hf0 : is_mcp_tool_named tool_name d0 = true).
  { unfold is_mcp_tool_named. rewrite <- Hname0, String.eqb_refl.
    cbn. now apply Is_true_eq_true. }
  destruct (find_present _ _ _ Hin0 Hf0) as (d & Hfind & Hin & Hf).
  unfold is_mcp_tool_named in Hf. apply andb_true_iff in Hf as [_ Hmcp].
  apply bool_decide_eq_true in Hmcp as [meta Hmeta].
  destruct (Hknown d meta Hin Hmeta) as [server Hget].
  assert (Hserver : is_open server).
  { unfold servers_open in Hopen. rewrite Forall_forall in Hopen.
    apply (Hopen (_mcp_server meta, server)). now apply dict_get_elem. }
  exists meta, server. split; [exact Hget|]. split; [exact Hserver|].
  rewrite (execute_tool_found w' tool_name arguments self d meta server
             Hnative Hfind Hmeta Hget).
  rewrite call_tool_eq. destruct Hserver as [Hsess Hstack].
  rewrite Hsess. unfold MCPServerConnection.session_entered. rewrite Hstack.
  reflexivity.
Qed.

Lemma registered_remote_tool_is_reachable_witness :
  native_tools (registry_after MoreExamples.demo_world MoreExamples.demo_registrations
                               HybridToolSystem.__init__) !! "mcp_get_hundred" = None
  /\ ("mcp_get_hundred"
        ∈ remote_names (registry_after MoreExamples.demo_world
                          MoreExamples.demo_registrations HybridToolSystem.__init__))
  /\ exists meta server,
       dict_get (mcp_servers (registry_after MoreExamples.demo_world
                                MoreExamples.demo_registrations
                                HybridToolSystem.__init__))
                (_mcp_server meta) = Some server
       /\ is_open server
       /\ execute_tool (Examples.calm [] [TextContent "7"; OtherContent])
                       "mcp_get_hundred" []
                       (registry_after MoreExamples.demo_world
                          MoreExamples.demo_registrations HybridToolSystem.__init__)
          = (joined_text
               (w_call_tool (Examples.calm [] [TextContent "7"; OtherContent])
                            (MCPServerConnection.server_params server) true
                            (_mcp_original_name meta) []),
             registry_after MoreExamples.demo_world MoreExamples.demo_registrations
                            HybridToolSystem.__init__,
             [EvCallTool (MCPServerConnection.server_params server)
                         (_mcp_original_name meta) []]).
Proof.
  assert (Hremote : "mcp_get_hundred"
                      ∈ remote_names (registry_after MoreExamples.demo_world
                                        MoreExamples.demo_registrations
                                        HybridToolSystem.__init__)).
  { apply (bool_decide_unpack _). vm_compute. reflexivity. }
  split; [vm_compute; reflexivity|]. split; [exact Hremote|].
  apply (registered_remote_tool_is_reachable MoreExamples.demo_world
           MoreExamples.demo_registrations
           (Examples.calm [] [TextContent "7"; OtherContent]) "mcp_get_hundred" []);
    [vm_compute; reflexivity | exact Hremote].
Defined.

(** ** What an attach changes *)

(** X3: a successful [add_mcp_server] stores the connection it opened
    under [server_name]: it is open and holds the listed tools.  An
    entry already stored under that name is replaced where it stands; a
    new name goes last; every other entry and every native binding is
    as before. *)
Theorem attach_stores_connection
        (w : World) (server_name command : string) (args : list string)
        (tool_prefix : option string) (self : HybridToolSystem.t) :
  result_of (add_mcp_server w server_name command args tool_prefix self) = Return tt ->
  exists server,
    dict_get (mcp_servers
                (state_of (add_mcp_server w server_name command args tool_prefix self)))
             server_name = Some server
    /\ is_open server
    /\ MCPServerConnection.name server = server_name
    /\ w_list_tools w {| command := command; args := args |}
       = Return (MCPServerConnection.tools server)
    /\ (forall other, other <> server_name ->
          dict_get (mcp_servers
                      (state_of (add_mcp_server w server_name command args
                                                tool_prefix self))) other
          = dict_get (mcp_servers self) other)
    /\ dict_keys (mcp_servers
                    (state_of (add_mcp_server w server_name command args
                                              tool_prefix self)))
       = match dict_get (mcp_servers self) server_name with
         | Some _ => dict_keys (mcp_servers self)
         | None => dict_keys (mcp_servers self) ++ [server_name]
         end
    /\ native_tools (state_of (add_mcp_server w server_name command args
                                              tool_prefix self))
       = native_tools self.
Proof.
  intros Hok. rewrite add_mcp_server_eq in *.
  destruct (MCPServerConnection.connect w _) as [[r server] ev] eqn:Hconn.
  destruct r as [[]|e]; unfold result_of, state_of in *; cbn [fst snd] in *;
    [|discriminate].
  apply connect_is_open in Hconn as (Hopen & Hname & _ & Htools); [|reflexivity].
  destruct (register_batch_keeps server_name tool_prefix
              (MCPServerConnection.tools server)
              (set_mcp_servers (dict_set (mcp_servers self) server_name server) self))
    as [Hs Hn].
  rewrite Hs, Hn. cbn [mcp_servers native_tools set_mcp_servers].
  exists server.
  split; [apply dict_get_set_eq|]. split; [exact Hopen|]. split; [exact Hname|].
  split; [exact Htools|]. split; [|split; [apply dict_keys_set | reflexivity]].
  intros other Hne. apply dict_get_set_ne. congruence.
Qed.

Lemma attach_stores_connection_witness :
  result_of (add_mcp_server MoreExamples.demo_world "simple_server" "python"
                            ["other.py"] None MoreExamples.demo) = Return tt
  /\ exists server,
       dict_get (mcp_servers
                   (state_of (add_mcp_server MoreExamples.demo_world "simple_server"
                                "python" ["other.py"] None MoreExamples.demo)))
                "simple_server" = Some server
       /\ is_open server.
Proof.
  split; [reflexivity|].
  destruct (attach_stores_connection MoreExamples.demo_world "simple_server" "python"
              ["other.py"] None MoreExamples.demo ltac:(reflexivity))
    as (server & Hget & Hopen & _).
  exists server. split; assumption.
Defined.

(** X4: registrations only ever add.  After any sequence of them the
    old [all_tools] is still there, unchanged and in front; no native
    binding and no server entry has disappeared. *)
Theorem registry_only_grows
        (w : World) (rs : list Registration) (self : HybridToolSystem.t) :
  (exists added, all_tools (registry_after w rs self) = all_tools self ++ added)
  /\ (forall n, is_Some (native_tools self !! n) ->
                is_Some (native_tools (registry_after w rs self) !! n))
  /\ (forall k, is_Some (dict_get (mcp_servers self) k) ->
                is_Some (dict_get (mcp_servers (registry_after w rs self)) k)).
Proof.
  revert self. induction rs as [|r rest IH]; intros self.
  - split; [exists []; now rewrite app_nil_r | now split].
  - unfold registry_after. cbn [fold_left].
    destruct (IH (state_of (register w r self))) as ((added & Hall) & Hnat & Hsrv).
    unfold registry_after in Hall, Hnat, Hsrv.
    assert (Hstep : (exists added1, all_tools (state_of (register w r self))
                                    = all_tools self ++ added1)
                    /\ (forall n, is_Some (native_tools self !! n) ->
                          is_Some (native_tools (state_of (register w r self)) !! n))
                    /\ (forall k, is_Some (dict_get (mcp_servers self) k) ->
                          is_Some (dict_get (mcp_servers (state_of (register w r self))) k))).
    { destruct r as [name description parameters function
                    | server_name command args tool_prefix]; cbn [register].
      - rewrite add_native_tool_eq. unfold state_of. cbn.
        split; [eauto|]. split; [|auto].
        intros n Hn. destruct (decide (name = n)) as [->|Hne].
        + rewrite lookup_insert_eq. eauto.
        + now rewrite lookup_insert_ne.
      - rewrite add_mcp_server_eq.
        destruct (MCPServerConnection.connect w _) as [[[[]|e] server] ev];
          unfold state_of; cbn [fst snd].
        2:{ split; [exists []; now rewrite app_nil_r | now split]. }
        destruct (register_batch_keeps server_name tool_prefix
                    (MCPServerConnection.tools server)
                    (set_mcp_servers (dict_set (mcp_servers self) server_name server)
                                     self)) as [Hs Hn].
        destruct (register_batch_defs server_name tool_prefix
                    (MCPServerConnection.tools server)
                    (set_mcp_servers (dict_set (mcp_servers self) server_name server)
                                     self)) as (defs & Hdefs & _).
        rewrite Hs, Hn, Hdefs. cbn [all_tools mcp_servers native_tools set_mcp_servers].
        split; [eauto|]. split; [auto|].
        intros k Hk. destruct (decide (server_name = k)) as [->|Hne].
        + rewrite dict_get_set_eq. eauto.
        + now rewrite dict_get_set_ne. }
    destruct Hstep as ((added1 & Hall1) & Hnat1 & Hsrv1).
    split; [|split].
    + exists (added1 ++ added). rewrite Hall, Hall1. now rewrite app_assoc.
    + intros n Hn. apply Hnat, Hnat1, Hn.
    + intros k Hk. apply Hsrv, Hsrv1, Hk.
Qed.

Lemma registry_only_grows_witness :
  is_Some (native_tools Examples.get_only !! "get")
  /\ is_Some (native_tools (registry_after MoreExamples.demo_world
                              MoreExamples.demo_registrations Examples.get_only)
              !! "get").
Proof.
  assert (Hbefore : is_Some (native_tools Examples.get_only !! "get")).
  { exists Examples.forty_two. vm_compute. reflexivity. }
  split; [exact Hbefore|].
  exact (proj1 (proj2 (registry_only_grows MoreExamples.demo_world
                         MoreExamples.demo_registrations Examples.get_only))
               "get" Hbefore).
Defined.

Lemma remote_def_adapted self server_name tool_prefix tool :
  adapted_from server_name tool_prefix tool
    (remote_def server_name (resolve_name self server_name tool_prefix tool) tool).
Proof.
  unfold adapted_from. cbn [remote_def fn_name fn_parameters fn_mcp].
  split; [|split; [|reflexivity]].
  - rewrite resolve_name_cases. destruct (name_taken self _); auto.
  - now destruct (Tool.inputSchema tool).
Qed.

Lemma register_batch_adapted server_name tool_prefix tools self :
  exists defs,
    all_tools (register_batch server_name tool_prefix tools self)
    = all_tools self ++ defs
    /\ Forall2 (adapted_from server_name tool_prefix) tools defs.
Proof.
  revert self. induction tools as [|tool rest IH]; intros self.
  - exists []. split; [now rewrite app_nil_r | constructor].
  - rewrite register_batch_cons.
    destruct (IH (append_tool (remote_def server_name
                    (resolve_name self server_name tool_prefix tool) tool) self))
      as (defs & Hall & Hadapted).
    exists (remote_def server_name
              (resolve_name self server_name tool_prefix tool) tool :: defs).
    split.
    + rewrite Hall. cbn. now rewrite <- app_assoc.
    + constructor; [apply remote_def_adapted | exact Hadapted].
Qed.

(** X5: what a successful [add_mcp_server] appends, tool by tool and in
    the server's order: a descriptor named by one of the two candidates
    and by nothing else, carrying the tool's [inputSchema], or the empty
    object schema when the tool has none, and the server and original
    name for routing. *)
Theorem remote_tools_are_adapted
        (w : World) (server_name command : string) (args : list string)
        (tool_prefix : option string) (self : HybridToolSystem.t)
        (tools : list Tool.t) :
  result_of (add_mcp_server w server_name command args tool_prefix self) = Return tt ->
  w_list_tools w {| command := command; args := args |} = Return tools ->
  exists defs,
    all_tools (state_of (add_mcp_server w server_name command args tool_prefix self))
    = all_tools self ++ defs
    /\ Forall2 (adapted_from server_name tool_prefix) tools defs.
Proof.
  intros Hok Hlist. rewrite add_mcp_server_eq in *.
  destruct (MCPServerConnection.connect w _) as [[r server] ev] eqn:Hconn.
  destruct r as [[]|e]; unfold result_of, state_of in *; cbn [fst snd] in *;
    [|discriminate].
  apply connect_is_open in Hconn as (_ & _ & _ & Htools); [|reflexivity].
  rewrite Hlist in Htools. injection Htools as <-.
  apply (register_batch_adapted server_name tool_prefix tools
           (set_mcp_servers (dict_set (mcp_servers self) server_name server) self)).
Qed.

Lemma remote_tools_are_adapted_witness :
  result_of (add_mcp_server (Examples.calm Examples.clash_tools []) "srv" "python"
                            ["srv.py"] (Some "mcp") Examples.get_only) = Return tt
  /\ w_list_tools (Examples.calm Examples.clash_tools [])
                  {| command := "python"; args := ["srv.py"] |}
     = Return Examples.clash_tools
  /\ exists defs,
       all_tools (state_of (add_mcp_server (Examples.calm Examples.clash_tools [])
                              "srv" "python" ["srv.py"] (Some "mcp") Examples.get_only))
       = all_tools Examples.get_only ++ defs
       /\ Forall2 (adapted_from "srv" (Some "mcp")) Examples.clash_tools defs.
Proof.
  split; [reflexivity|]. split; [reflexivity|].
  apply (remote_tools_are_adapted (Examples.calm Examples.clash_tools [])
           "srv" "python" ["srv.py"] (Some "mcp") Examples.get_only
           Examples.clash_tools); reflexivity.
Defined.

Lemma register_batch_empty_prefix server_name tools self :
  register_batch server_name (Some "") tools self
  = register_batch server_name None tools self.
Proof.
  revert self. induction tools as [|tool rest IH]; intros self; [reflexivity|].
  rewrite !register_batch_cons.
  change (resolve_name self server_name (Some "") tool)
    with (resolve_name self server_name None tool).
  apply IH.
Qed.

(** X6: an empty [tool_prefix] is no prefix.  [add_mcp_server] with
    [tool_prefix=""] does exactly what it does with [tool_prefix=None]:
    no tool is named ["_{name}"]. *)
Theorem empty_prefix_is_no_prefix
        (w : World) (server_name command : string) (args : list string)
        (self : HybridToolSystem.t) :
  add_mcp_server w server_name command args (Some "") self
  = add_mcp_server w server_name command args None self.
Proof.
  rewrite !add_mcp_server_eq.
  destruct (MCPServerConnection.connect w _) as [[[[]|e] server] ev]; [|reflexivity].
  now rewrite register_batch_empty_prefix.
Qed.

(** X7: [add_mcp_server] never closes what it opened.  When the
    transport was started and the attach then fails, the connection it
    built still has contexts entered, no [aclose] was awaited, and the
    system holds no entry through which [close] could reach it. *)
Theorem failed_attach_leaves_transport_entered
        (w : World) (server_name command : string) (args : list string)
        (tool_prefix : option string) (self : HybridToolSystem.t) (e : exn) :
  w_stdio_client w {| command := command; args := args |} = Return tt ->
  result_of (add_mcp_server w server_name command args tool_prefix self) = Raise e ->
  has_entered (state_of (MCPServerConnection.connect w
                           (MCPServerConnection.__init__ server_name command args)))
  = true
  /\ Forall (fun ev => is_aclose ev = false)
            (trace_of (add_mcp_server w server_name command args tool_prefix self))
  /\ mcp_servers (state_of (add_mcp_server w server_name command args tool_prefix self))
     = mcp_servers self.
Proof.
  intros Hstdio Hfail. rewrite add_mcp_server_eq in *.
  revert Hfail.
  unfold MCPServerConnection.connect, bind, modify, gets, await,
    result_of, state_of, trace_of, has_entered.
  cbn. rewrite Hstdio. cbn.
  destruct (w_client_session w _) as [[]|e2]; cbn.
  2:{ intros _. repeat split. repeat constructor. }
  destruct (w_initialize w _) as [[]|e3]; cbn.
  2:{ intros _. repeat split. repeat constructor. }
  destruct (w_list_tools w _) as [ts|e4]; cbn.
  - discriminate.
  - intros _. repeat split. repeat constructor.
Qed.

Lemma failed_attach_leaves_transport_entered_witness :
  w_stdio_client Examples.no_listing {| command := "python"; args := ["srv.py"] |}
  = Return tt
  /\ result_of (add_mcp_server Examples.no_listing "srv" "python" ["srv.py"] None
                               Examples.get_only)
     = Raise (OtherError "Connection closed")
  /\ has_entered (state_of (MCPServerConnection.connect Examples.no_listing
                              (MCPServerConnection.__init__ "srv" "python" ["srv.py"])))
     = true.
Proof.
  split; [reflexivity|]. split; [reflexivity|].
  apply (failed_attach_leaves_transport_entered Examples.no_listing "srv" "python"
           ["srv.py"] None Examples.get_only (OtherError "Connection closed"));
    reflexivity.
Defined.

(** ** Closing, again and again *)

Lemma connection_close_eq w server :
  MCPServerConnection.close w server
  = if has_entered server
    then (w_aclose w (MCPServerConnection.server_params server),
          MCPServerConnection.set_stack (Some []) server,
          [EvAclose (MCPServerConnection.server_params server)])
    else (Return tt, server, []).
Proof.
  unfold MCPServerConnection.close, has_entered, bind, gets, modify, await, ret.
  destruct server as [n p s [[|c ctxs]|] ts]; reflexivity.
Qed.

Lemma has_entered_emptied server :
  has_entered (MCPServerConnection.set_stack (Some []) server) = false.
Proof. reflexivity. Qed.

Lemma close_each_keys w servers :
  dict_keys (snd (fst (close_each w servers))) = dict_keys servers.
Proof.
  induction servers as [|[k server] rest IH]; [reflexivity|].
  cbn [close_each].
  destruct (MCPServerConnection.close w server) as [[[[]|e] server'] ev];
    [|reflexivity].
  destruct (close_each w rest) as [[r rest'] ev']. cbn in IH |- *. now rewrite IH.
Qed.

Lemma close_each_pending w servers :
  match fst (fst (close_each w servers)) with
  | Return _ => pending (snd (fst (close_each w servers))) = 0
  | Raise _ => pending (snd (fst (close_each w servers))) < pending servers
  end.
Proof.
  induction servers as [|[k server] rest IH]; [reflexivity|].
  cbn [close_each]. rewrite connection_close_eq.
  unfold pending in *. cbn [List.filter snd].
  destruct (has_entered server) eqn:Hentered.
  - destruct (w_aclose w _) as [[]|e].
    + destruct (close_each w rest) as [[r rest'] ev']. cbn [fst snd] in IH |- *.
      cbn [List.filter snd]. rewrite has_entered_emptied.
      destruct r; cbn [length]; [exact IH | lia].
    + cbn [fst snd List.filter]. rewrite has_entered_emptied.
      cbn [length]. lia.
  - destruct (close_each w rest) as [[r rest'] ev']. cbn [fst snd] in IH |- *.
    cbn [List.filter snd]. rewrite Hentered. exact IH.
Qed.


(** X8: [close] leaves the registry alone.  Whatever the closing of the
    servers does, the descriptors, the native tools and the server
    names stored, with their order, are what they were: tools of closed
    servers stay listed. *)
Theorem close_keeps_registry (w : World) (self : HybridToolSystem.t) :
  all_tools (state_of (close w self)) = all_tools self
  /\ native_tools (state_of (close w self)) = native_tools self
  /\ dict_keys (mcp_servers (state_of (close w self))) = dict_keys (mcp_servers self).
Proof.
  unfold close, state_of.
  pose proof (close_each_keys w (mcp_servers self)) as Hkeys.
  destruct (close_each w (mcp_servers self)) as [[r servers'] ev].
  cbn in Hkeys |- *. auto.
Qed.

(** X9: every [close] makes progress.  When it returns, no stored
    connection has a context entered any more; when it raises, strictly
    fewer have than before, the failing one being emptied too, so that
    calling [close] again goes on with the servers that were left. *)
Theorem close_makes_progress (w : World) (self : HybridToolSystem.t) :
  match result_of (close w self) with
  | Return _ => pending (mcp_servers (state_of (close w self))) = 0
  | Raise _ => pending (mcp_servers (state_of (close w self)))
               < pending (mcp_servers self)
  end.
Proof.
  unfold close, result_of, state_of.
  pose proof (close_each_pending w (mcp_servers self)) as Hprog.
  destruct (close_each w (mcp_servers self)) as [[r servers'] ev].
  exact Hprog.
Qed.



(** ** Execution never changes the system *)

Lemma call_on_server_keeps w server_name original_name arguments self :
  state_of (call_on_server w server_name original_name arguments self) = self
  /\ length (trace_of (call_on_server w server_name original_name arguments self)) <= 1.
Proof.
  destruct (dict_get (mcp_servers self) server_name) as [server|] eqn:Hget.
  - rewrite (call_on_server_found w _ _ _ _ _ Hget). unfold state_of, trace_of.
    cbn [fst snd]. split; [reflexivity|]. rewrite call_tool_eq.
    destruct (MCPServerConnection.session server); cbn; lia.
  - unfold call_on_server. rewrite Hget. cbn. split; [reflexivity | lia].
Qed.

(** X11: [execute_tool] is a pure dispatch.  Whatever the name, the
    arguments and the outcome, the system afterwards is the system
    before, and at most one call was awaited: nothing is retried and
    nothing is registered, connected or closed on the way. *)
Theorem execute_tool_leaves_system
        (w : World) (self : HybridToolSystem.t) (tool_name : string)
        (arguments : Arguments_) :
  state_of (execute_tool w tool_name arguments self) = self
  /\ length (trace_of (execute_tool w tool_name arguments self)) <= 1
  /\ Forall (fun ev => match ev with
                       | EvNative _ _ | EvCallTool _ _ _ => True
                       | _ => False
                       end)
            (trace_of (execute_tool w tool_name arguments self)).
Proof.
  rewrite execute_tool_eq.
  destruct (native_tools self !! tool_name) as [function|].
  { unfold state_of, trace_of. cbn. repeat split; [lia | repeat constructor]. }
  destruct (find (is_mcp_tool_named tool_name) (all_tools self))
    as [[n ds p [meta|]]|];
    try (unfold state_of, trace_of; cbn; repeat split; [lia | constructor]).
  destruct (call_on_server_keeps w (_mcp_server meta) (_mcp_original_name meta)
              arguments self) as [Hstate Hlen].
  split; [exact Hstate|]. split; [exact Hlen|].
  unfold call_on_server, trace_of.
  destruct (dict_get (mcp_servers self) (_mcp_server meta)) as [server|];
    [|constructor].
  rewrite call_tool_eq.
  destruct (MCPServerConnection.session server); cbn; repeat constructor.
Qed.

Lemma execute_tool_state w tool_name arguments self :
  state_of (execute_tool w tool_name arguments self) = self.
Proof.
  rewrite execute_tool_eq.
  destruct (native_tools self !! tool_name) as [function|]; [reflexivity|].
  destruct (find (is_mcp_tool_named tool_name) (all_tools self))
    as [[n ds p [meta|]]|]; try reflexivity.
  apply call_on_server_keeps.
Qed.

(** ** [chat_completion] *)

Section ChatFacts.
Variable client : Chat.Request -> PyResult Chat.ChatCompletionMessage.
Variable json_loads : string -> PyResult Arguments_.
Variable w : World.

Lemma set_system_same s : Chat.set_system (Chat.system s) s = s.
Proof. now destruct s. Qed.

Lemma one_tool_call call (k : string -> M Chat.State (list Chat.MessageDict)) s :
  (function_args <~ lift (json_loads (Chat.function_arguments call)) ;;
   result <~ Chat.on_system
               (execute_tool w (Chat.function_name call) function_args) ;;
   k result) s
  = match fst (tool_outcome json_loads w (Chat.system s) call) with
    | Return result =>
        let '(r, s', ev) := k result s in
        (r, s', snd (tool_outcome json_loads w (Chat.system s) call) ++ ev)
    | Raise e =>
        (Raise e, s, snd (tool_outcome json_loads w (Chat.system s) call))
    end.
Proof.
  unfold tool_outcome, bind at 1, lift.
  destruct (json_loads (Chat.function_arguments call)) as [function_args|e];
    [|reflexivity].
  cbn [fst snd]. unfold bind, Chat.on_system.
  pose proof (execute_tool_state w (Chat.function_name call) function_args
                                 (Chat.system s)) as Hstate.
  destruct (execute_tool w (Chat.function_name call) function_args (Chat.system s))
    as [[r sys'] ev].
  unfold state_of, result_of, trace_of in *. cbn [fst snd] in *. subst sys'.
  rewrite set_system_same. destruct r as [result|e]; [|reflexivity].
  destruct (k result s) as [[r' s'] ev']. reflexivity.
Qed.

Lemma run_tool_calls_all calls results acc s :
  Forall2 (fun call result =>
             fst (tool_outcome json_loads w (Chat.system s) call) = Return result)
          calls results ->
  Chat.run_tool_calls json_loads w calls acc s
  = (Return (acc ++ zip_with tool_message calls results), s,
     flat_map (fun call => snd (tool_outcome json_loads w (Chat.system s) call)) calls).
Proof.
  intros Hall. revert acc.
  induction Hall as [|call result calls results Hcall _ IH]; intros acc.
  - cbn. now rewrite app_nil_r.
  - cbn [Chat.run_tool_calls]. rewrite one_tool_call, Hcall.
    rewrite IH. cbn [flat_map zip_with]. now rewrite <- app_assoc.
Qed.

Lemma run_tool_calls_stops done results failing rest e acc s :
  Forall2 (fun call result =>
             fst (tool_outcome json_loads w (Chat.system s) call) = Return result)
          done results ->
  fst (tool_outcome json_loads w (Chat.system s) failing) = Raise e ->
  Chat.run_tool_calls json_loads w (done ++ failing :: rest) acc s
  = (Raise e, s,
     flat_map (fun call => snd (tool_outcome json_loads w (Chat.system s) call)) done
     ++ snd (tool_outcome json_loads w (Chat.system s) failing)).
Proof.
  intros Hall Hfail. revert acc.
  induction Hall as [|call result calls results Hcall _ IH]; intros acc.
  - cbn [app Chat.run_tool_calls flat_map]. now rewrite one_tool_call, Hfail.
  - cbn [app Chat.run_tool_calls]. rewrite one_tool_call, Hcall.
    rewrite IH. cbn [flat_map]. now rewrite <- app_assoc.
Qed.

Lemma chat_completion_eq s :
  Chat.chat_completion client json_loads w s
  = let s1 := {| Chat.system := Chat.system s; Chat.messages := Chat.messages s;
                 Chat.requests := Chat.requests s ++ [first_request s] |} in
    match client (first_request s) with
    | Raise e => (Raise e, s1, [])
    | Return message =>
        match Chat.tool_calls message with
        | Some (first :: others) =>
            match Chat.run_tool_calls json_loads w (first :: others) [] s1 with
            | (Raise e, s2, ev) => (Raise e, s2, ev)
            | (Return tool_results, s2, ev) =>
                (content_of (client (second_request s2 message tool_results)),
                 {| Chat.system := Chat.system s2;
                    Chat.messages :=
                      Chat.messages s2 ++ Chat.Dumped message :: tool_results;
                    Chat.requests :=
                      Chat.requests s2
                      ++ [second_request s2 message tool_results] |},
                 ev)
            end
        | _ => (Return (Chat.content message), s1, [])
        end
    end.
Proof.
  unfold Chat.chat_completion, bind at 1, gets. cbv beta iota.
  unfold bind at 1, gets. cbv beta iota.
  unfold bind at 1, Chat.create. cbv beta iota. fold (first_request s).
  destruct (client (first_request s)) as [message|e]; [|reflexivity].
  destruct (Chat.tool_calls message) as [[|first others]|];
    [reflexivity| |reflexivity].
  unfold bind at 1.
  destruct (Chat.run_tool_calls json_loads w (first :: others) [] _)
    as [[[tool_results|e] s2] ev]; [|reflexivity].
  unfold bind, modify, gets, ret, second_request, content_of. cbn.
  rewrite <- app_assoc. cbn [app].
  destruct (client _); now rewrite ?app_nil_r.
Qed.

End ChatFacts.

(** X12: when the model asks for no tool ([tool_calls] is [None] or
    empty), [chat_completion] returns the content of that first answer;
    one request was sent, no tool ran, and the caller's [messages] and
    the system are untouched. *)
Theorem chat_without_tool_calls
        (client : Chat.Request -> PyResult Chat.ChatCompletionMessage)
        (json_loads : string -> PyResult Arguments_) (w : World)
        (s : Chat.State) (message : Chat.ChatCompletionMessage) :
  client (first_request s) = Return message ->
  Chat.tool_calls message = None \/ Chat.tool_calls message = Some [] ->
  Chat.chat_completion client json_loads w s
  = (Return (Chat.content message),
     {| Chat.system := Chat.system s; Chat.messages := Chat.messages s;
        Chat.requests := Chat.requests s ++ [first_request s] |},
     []).
Proof.
  intros Hfirst Hnone. rewrite chat_completion_eq. cbv zeta. rewrite Hfirst.
  destruct Hnone as [-> | ->]; reflexivity.
Qed.

Lemma chat_without_tool_calls_witness :
  MoreExamples.asks_for (Some []) (first_request MoreExamples.asking)
  = Return {| Chat.content := None; Chat.tool_calls := Some [] |}
  /\ (Chat.tool_calls {| Chat.content := None; Chat.tool_calls := Some [] |} = None
      \/ Chat.tool_calls {| Chat.content := None; Chat.tool_calls := Some [] |}
         = Some [])
  /\ Chat.chat_completion (MoreExamples.asks_for (Some [])) MoreExamples.loads_empty
                          MoreExamples.demo_world MoreExamples.asking
     = (Return None,
        {| Chat.system := MoreExamples.demo;
           Chat.messages := [Chat.Plain "user" "square and hundred"];
           Chat.requests := [first_request MoreExamples.asking] |},
        []).
Proof.
  split; [reflexivity|]. split; [right; reflexivity|].
  apply (chat_without_tool_calls (MoreExamples.asks_for (Some []))
           MoreExamples.loads_empty MoreExamples.demo_world MoreExamples.asking
           {| Chat.content := None; Chat.tool_calls := Some [] |});
    [reflexivity | right; reflexivity].
Defined.

(** X13: when every tool call of the model succeeds, the tools run once
    each, in the order asked, on an unchanged system; the caller's
    [messages] grows by the dumped answer followed by one tool message
    per call, in that order, each with the call's id and name; a second
    request carries the grown list and no tools, and its content, or its
    exception, is the outcome. *)
Theorem chat_runs_every_tool_call
        (client : Chat.Request -> PyResult Chat.ChatCompletionMessage)
        (json_loads : string -> PyResult Arguments_) (w : World)
        (s : Chat.State) (message : Chat.ChatCompletionMessage)
        (calls : list Chat.ToolCall) (results : list string) :
  client (first_request s) = Return message ->
  Chat.tool_calls message = Some calls ->
  calls <> [] ->
  Forall2 (fun call result =>
             fst (tool_outcome json_loads w (Chat.system s) call) = Return result)
          calls results ->
  Chat.chat_completion client json_loads w s
  = (content_of (client (second_request s message
                                        (zip_with tool_message calls results))),
     {| Chat.system := Chat.system s;
        Chat.messages :=
          Chat.messages s
          ++ Chat.Dumped message :: zip_with tool_message calls results;
        Chat.requests :=
          Chat.requests s
          ++ [first_request s;
              second_request s message (zip_with tool_message calls results)] |},
     flat_map (fun call => snd (tool_outcome json_loads w (Chat.system s) call)) calls).
Proof.
  intros Hfirst Hcalls Hnonempty Hall. rewrite chat_completion_eq. cbv zeta.
  rewrite Hfirst, Hcalls.
  destruct calls as [|first others]; [congruence|].
  rewrite (run_tool_calls_all json_loads w (first :: others) results []
             {| Chat.system := Chat.system s; Chat.messages := Chat.messages s;
                Chat.requests := Chat.requests s ++ [first_request s] |} Hall).
  cbn [app Chat.system Chat.messages Chat.requests].
  unfold second_request. cbn [Chat.messages]. now rewrite <- app_assoc.
Qed.

Lemma chat_runs_every_tool_call_witness :
  MoreExamples.asks_for (Some MoreExamples.good_calls)
                        (first_request MoreExamples.asking)
  = Return {| Chat.content := None; Chat.tool_calls := Some MoreExamples.good_calls |}
  /\ MoreExamples.good_calls <> []
  /\ Forall2 (fun call result =>
                fst (tool_outcome MoreExamples.loads_empty MoreExamples.demo_world
                                  (Chat.system MoreExamples.asking) call)
                = Return result)
             MoreExamples.good_calls ["42"; "100"]
  /\ result_of (Chat.chat_completion
                  (MoreExamples.asks_for (Some MoreExamples.good_calls))
                  MoreExamples.loads_empty MoreExamples.demo_world
                  MoreExamples.asking)
     = Return (Some "done").
Proof.
  assert (Hall : Forall2 (fun call result =>
                            fst (tool_outcome MoreExamples.loads_empty
                                   MoreExamples.demo_world
                                   (Chat.system MoreExamples.asking) call)
                            = Return result)
                         MoreExamples.good_calls ["42"; "100"]).
  { repeat constructor; vm_compute; reflexivity. }
  split; [reflexivity|]. split; [discriminate|]. split; [exact Hall|].
  rewrite (chat_runs_every_tool_call
             (MoreExamples.asks_for (Some MoreExamples.good_calls))
             MoreExamples.loads_empty MoreExamples.demo_world MoreExamples.asking
             {| Chat.content := None; Chat.tool_calls := Some MoreExamples.good_calls |}
             MoreExamples.good_calls ["42"; "100"]
             ltac:(reflexivity) ltac:(reflexivity) ltac:(discriminate) Hall).
  reflexivity.
Defined.

(** X14: the first tool call that fails ends [chat_completion] with its
    exception: a name the system does not know, arguments that do not
    parse, a tool that raises.  The calls after it do not run, no second
    request is sent, and the caller's [messages] is as it was, the
    results of the calls that did run being dropped. *)
Theorem chat_stops_at_failing_tool_call
        (client : Chat.Request -> PyResult Chat.ChatCompletionMessage)
        (json_loads : string -> PyResult Arguments_) (w : World)
        (s : Chat.State) (message : Chat.ChatCompletionMessage)
        (done rest : list Chat.ToolCall) (failing : Chat.ToolCall)
        (results : list string) (e : exn) :
  client (first_request s) = Return message ->
  Chat.tool_calls message = Some (done ++ failing :: rest) ->
  Forall2 (fun call result =>
             fst (tool_outcome json_loads w (Chat.system s) call) = Return result)
          done results ->
  fst (tool_outcome json_loads w (Chat.system s) failing) = Raise e ->
  Chat.chat_completion client json_loads w s
  = (Raise e,
     {| Chat.system := Chat.system s; Chat.messages := Chat.messages s;
        Chat.requests := Chat.requests s ++ [first_request s] |},
     flat_map (fun call => snd (tool_outcome json_loads w (Chat.system s) call)) done
     ++ snd (tool_outcome json_loads w (Chat.system s) failing)).
Proof.
  intros Hfirst Hcalls Hall Hfail. rewrite chat_completion_eq. cbv zeta.
  rewrite Hfirst, Hcalls.
  destruct (done ++ failing :: rest) as [|first others] eqn:Hshape.
  { now destruct done. }
  rewrite <- Hshape.
  now rewrite (run_tool_calls_stops json_loads w done results failing rest e []
                 {| Chat.system := Chat.system s; Chat.messages := Chat.messages s;
                    Chat.requests := Chat.requests s ++ [first_request s] |}
                 Hall Hfail).
Qed.

Lemma chat_stops_at_failing_tool_call_witness :
  MoreExamples.asks_for (Some MoreExamples.mixed_calls)
                        (first_request MoreExamples.asking)
  = Return {| Chat.content := None;
              Chat.tool_calls := Some MoreExamples.mixed_calls |}
  /\ MoreExamples.mixed_calls
     = [MoreExamples.call "call_1" "calculate_square"]
         ++ MoreExamples.call "call_2" "nonexistent"
         :: [MoreExamples.call "call_3" "mcp_get_hundred"]
  /\ fst (tool_outcome MoreExamples.loads_empty MoreExamples.demo_world
                       (Chat.system MoreExamples.asking)
                       (MoreExamples.call "call_2" "nonexistent"))
     = Raise (ValueError "Unknown tool: nonexistent")
  /\ Chat.chat_completion (MoreExamples.asks_for (Some MoreExamples.mixed_calls))
                          MoreExamples.loads_empty MoreExamples.demo_world
                          MoreExamples.asking
     = (Raise (ValueError "Unknown tool: nonexistent"),
        {| Chat.system := MoreExamples.demo;
           Chat.messages := [Chat.Plain "user" "square and hundred"];
           Chat.requests := [first_request MoreExamples.asking] |},
        [EvNative "calculate_square" []]).
Proof.
  assert (Hdone : Forall2 (fun call result =>
                             fst (tool_outcome MoreExamples.loads_empty
                                    MoreExamples.demo_world
                                    (Chat.system MoreExamples.asking) call)
                             = Return result)
                          [MoreExamples.call "call_1" "calculate_square"] ["42"]).
  { repeat constructor; vm_compute; reflexivity. }
  assert (Hfail : fst (tool_outcome MoreExamples.loads_empty MoreExamples.demo_world
                         (Chat.system MoreExamples.asking)
                         (MoreExamples.call "call_2" "nonexistent"))
                  = Raise (ValueError "Unknown tool: nonexistent")).
  { vm_compute; reflexivity. }
  split; [reflexivity|]. split; [reflexivity|]. split; [exact Hfail|].
  rewrite (chat_stops_at_failing_tool_call
             (MoreExamples.asks_for (Some MoreExamples.mixed_calls))
             MoreExamples.loads_empty
             MoreExamples.demo_world MoreExamples.asking
             {| Chat.content := None;
                Chat.tool_calls := Some MoreExamples.mixed_calls |}
             [MoreExamples.call "call_1" "calculate_square"]
             [MoreExamples.call "call_3" "mcp_get_hundred"]
             (MoreExamples.call "call_2" "nonexistent") ["42"]
             (ValueError "Unknown tool: nonexistent")
             ltac:(reflexivity) ltac:(reflexivity) Hdone Hfail).
  vm_compute; reflexivity.
Defined.

(** ** The hybrid system used like the bridge *)

Lemma bridge_connect_eq w self :
  OpenAIMCPBridge.connect w self
  = let p := OpenAIMCPBridge.server_params self in
    match w_stdio_client w p with
    | Raise e => (Raise e, OpenAIMCPBridge.set_stack (Some []) self, [EvStdioClient p])
    | Return _ =>
        match w_client_session w p with
        | Raise e =>
            (Raise e, OpenAIMCPBridge.set_stack (Some [CtxStdio]) self,
             [EvStdioClient p; EvClientSession p])
        | Return _ =>
            let opened :=
              OpenAIMCPBridge.set_session (Some {| peer := p |})
                (OpenAIMCPBridge.set_stack (Some [CtxSession; CtxStdio]) self) in
            match w_initialize w p with
            | Raise e =>
                (Raise e, opened,
                 [EvStdioClient p; EvClientSession p; EvInitialize p])
            | Return _ =>
                match w_list_tools w p with
                | Raise e =>
                    (Raise e, opened,
                     [EvStdioClient p; EvClientSession p; EvInitialize p;
                      EvListTools p])
                | Return listed =>
                    (Return tt,
                     OpenAIMCPBridge.set_tools
                       (OpenAIMCPBridge._convert_mcp_tools_to_openai listed) opened,
                     [EvStdioClient p; EvClientSession p; EvInitialize p;
                      EvListTools p])
                end
            end
        end
    end.
Proof.
  unfold OpenAIMCPBridge.connect, bind, modify, gets, await. cbn.
  destruct (w_stdio_client w _) as [[]|e1]; cbn; [|reflexivity].
  destruct (w_client_session w _) as [[]|e2]; cbn; [|reflexivity].
  destruct (w_initialize w _) as [[]|e3]; cbn; [|reflexivity].
  destruct (w_list_tools w _) as [ts|e4]; reflexivity.
Qed.

Lemma convert_names listed :
  map OpenAIMCPBridge.name (OpenAIMCPBridge._convert_mcp_tools_to_openai listed)
  = map Tool.name listed.
Proof. induction listed as [|tool rest IH]; cbn; [reflexivity | now rewrite IH]. Qed.

Lemma name_taken_append d self n :
  name_taken (append_tool d self) n
  = name_taken self n || String.eqb (fn_name d) n.
Proof.
  unfold name_taken, append_tool. cbn [native_tools all_tools set_all_tools].
  rewrite existsb_app. cbn [existsb]. now rewrite orb_false_r, orb_assoc.
Qed.

Lemma fresh_tools_cons self server_name tool rest :
  fresh_tools self (tool :: rest) ->
  resolve_name self server_name None tool = Tool.name tool
  /\ fresh_tools (append_tool (remote_def server_name (Tool.name tool) tool) self) rest.
Proof.
  intros [Hnd Hfree]. cbn [map] in Hnd. apply NoDup_cons in Hnd as [Hnotin Hnd].
  split.
  - rewrite resolve_name_cases. unfold first_candidate. cbn [prefixed_name].
    now rewrite (Hfree tool) by left.
  - split; [exact Hnd|]. intros t Ht. rewrite name_taken_append.
    rewrite (Hfree t) by now right. cbn [remote_def fn_name orb].
    apply String.eqb_neq. intros Heq. apply Hnotin. rewrite Heq.
    now apply list_elem_of_fmap_2.
Qed.

Lemma register_batch_fresh server_name tools self :
  fresh_tools self tools ->
  all_tools (register_batch server_name None tools self)
  = all_tools self
    ++ map (fun tool => remote_def server_name (Tool.name tool) tool) tools.
Proof.
  revert self. induction tools as [|tool rest IH]; intros self Hfresh.
  - cbn. now rewrite app_nil_r.
  - rewrite register_batch_cons.
    destruct (fresh_tools_cons self server_name tool rest Hfresh) as [Hname Hrest].
    rewrite Hname, (IH _ Hrest). cbn. now rewrite <- app_assoc.
Qed.

(** X15: without prefix and without collisions the hybrid system names
    remote tools as the bridge does.  When the listed tools have distinct
    names and none of them is taken, the names [add_mcp_server] adds are
    the names the bridge's [connect] to the same server ends up with:
    the server's own names, in the server's order. *)
Theorem hybrid_names_agree_with_bridge
        (w : World) (server_name command : string) (args : list string)
        (self : HybridToolSystem.t) (tools : list Tool.t) :
  result_of (add_mcp_server w server_name command args None self) = Return tt ->
  w_list_tools w {| command := command; args := args |} = Return tools ->
  fresh_tools self tools ->
  registered_names (state_of (add_mcp_server w server_name command args None self))
  = registered_names self
    ++ map OpenAIMCPBridge.name (OpenAIMCPBridge.tools (bridge_after w command args))
  /\ map OpenAIMCPBridge.name (OpenAIMCPBridge.tools (bridge_after w command args))
     = map Tool.name tools.
Proof.
  intros Hok Hlist Hfresh.
  assert (Hbridge : map OpenAIMCPBridge.name
                        (OpenAIMCPBridge.tools (bridge_after w command args))
                    = map Tool.name tools).
  { rewrite add_mcp_server_eq in Hok. revert Hok.
    unfold bridge_after. rewrite bridge_connect_eq.
    unfold MCPServerConnection.connect, bind, modify, gets, await, result_of, state_of.
    cbn. rewrite Hlist.
    destruct (w_stdio_client w _) as [[]|e1]; cbn; [|discriminate].
    destruct (w_client_session w _) as [[]|e2]; cbn; [|discriminate].
    destruct (w_initialize w _) as [[]|e3]; cbn; [|discriminate].
    intros _. apply convert_names. }
  split; [|exact Hbridge]. rewrite Hbridge.
  rewrite add_mcp_server_eq in *.
  destruct (MCPServerConnection.connect w _) as [[r server] ev] eqn:Hconn.
  destruct r as [[]|e]; unfold result_of, state_of in *; cbn [fst snd] in *;
    [|discriminate].
  apply connect_is_open in Hconn as (_ & _ & _ & Htools); [|reflexivity].
  rewrite Hlist in Htools. injection Htools as <-.
  unfold registered_names. rewrite register_batch_fresh by exact Hfresh.
  cbn [all_tools set_mcp_servers]. rewrite map_app, map_map. reflexivity.
Qed.

Lemma hybrid_names_agree_with_bridge_witness :
  result_of (add_mcp_server (Examples.calm Examples.clash_tools []) "srv" "python"
                            ["srv.py"] None HybridToolSystem.__init__) = Return tt
  /\ fresh_tools HybridToolSystem.__init__ Examples.clash_tools
  /\ registered_names
       (state_of (add_mcp_server (Examples.calm Examples.clash_tools []) "srv"
                                 "python" ["srv.py"] None HybridToolSystem.__init__))
     = registered_names HybridToolSystem.__init__
       ++ map OpenAIMCPBridge.name
              (OpenAIMCPBridge.tools
                 (bridge_after (Examples.calm Examples.clash_tools []) "python"
                               ["srv.py"])).
Proof.
  assert (Hfresh : fresh_tools HybridToolSystem.__init__ Examples.clash_tools).
  { split.
    - apply (bool_decide_unpack _). vm_compute. reflexivity.
    - intros tool _. reflexivity. }
  split; [reflexivity|]. split; [exact Hfresh|].
  apply (hybrid_names_agree_with_bridge (Examples.calm Examples.clash_tools [])
           "srv" "python" ["srv.py"] HybridToolSystem.__init__ Examples.clash_tools);
    [reflexivity | reflexivity | exact Hfresh].
Defined.

Lemma connect_world w self :
  result_of (MCPServerConnection.connect w self) = Return tt ->
  w_stdio_client w (MCPServerConnection.server_params self) = Return tt
  /\ w_client_session w (MCPServerConnection.server_params self) = Return tt
  /\ w_initialize w (MCPServerConnection.server_params self) = Return tt.
Proof.
  unfold MCPServerConnection.connect, bind, modify, gets, await, result_of. cbn.
  destruct (w_stdio_client w _) as [[]|e1]; cbn; [|discriminate].
  destruct (w_client_session w _) as [[]|e2]; cbn; [|discriminate].
  destruct (w_initialize w _) as [[]|e3]; cbn; [|discriminate].
  intros _. repeat split.
Qed.

Lemma name_free_not_native self n :
  name_taken self n = false -> native_tools self !! n = None.
Proof.
  unfold name_taken. intros Hfree. apply orb_false_iff in Hfree as [Hnat _].
  apply bool_decide_eq_false in Hnat.
  destruct (native_tools self !! n) eqn:Hn; [|reflexivity].
  exfalso. apply Hnat. eauto.
Qed.

Lemma bridge_call_eq w name arguments self :
  OpenAIMCPBridge.call_mcp_tool w name arguments self
  = match OpenAIMCPBridge.session self with
    | None =>
        (Raise (AttributeError "'NoneType' object has no attribute 'call_tool'"),
         self, [])
    | Some sess =>
        (joined_text (w_call_tool w (peer sess)
                        (OpenAIMCPBridge.session_entered self) name arguments),
         self, [EvCallTool (peer sess) name arguments])
    end.
Proof.
  unfold OpenAIMCPBridge.call_mcp_tool, bind, gets. cbv beta iota.
  destruct (OpenAIMCPBridge.session self) as [sess|]; [|reflexivity].
  unfold await, ret. cbv beta iota.
  destruct (w_call_tool w _ _ _ _); reflexivity.
Qed.

Lemma bridge_after_connected w command args listed :
  w_stdio_client w {| command := command; args := args |} = Return tt ->
  w_client_session w {| command := command; args := args |} = Return tt ->
  w_initialize w {| command := command; args := args |} = Return tt ->
  w_list_tools w {| command := command; args := args |} = Return listed ->
  bridge_after w command args
  = {| OpenAIMCPBridge.server_params := {| command := command; args := args |};
       OpenAIMCPBridge.session := Some {| peer := {| command := command; args := args |} |};
       OpenAIMCPBridge.stack := Some [CtxSession; CtxStdio];
       OpenAIMCPBridge.tools := OpenAIMCPBridge._convert_mcp_tools_to_openai listed |}.
Proof.
  intros H1 H2 H3 H4. unfold bridge_after. rewrite bridge_connect_eq. cbn.
  now rewrite H1, H2, H3, H4.
Qed.

(** X16: and it calls them as the bridge does.  After such an attach,
    executing one of the listed names on the hybrid system gives the
    text, or the exception, and the one awaited call that the bridge's
    [call_mcp_tool] gives for that name on its own session to the same
    server. *)
Theorem hybrid_call_agrees_with_bridge
        (w w' : World) (server_name command : string) (args : list string)
        (self : HybridToolSystem.t) (tools : list Tool.t) (tool : Tool.t)
        (arguments : Arguments_) :
  result_of (add_mcp_server w server_name command args None self) = Return tt ->
  w_list_tools w {| command := command; args := args |} = Return tools ->
  fresh_tools self tools ->
  tool ∈ tools ->
  result_of (execute_tool w' (Tool.name tool) arguments
               (state_of (add_mcp_server w server_name command args None self)))
  = result_of (OpenAIMCPBridge.call_mcp_tool w' (Tool.name tool) arguments
                 (bridge_after w command args))
  /\ trace_of (execute_tool w' (Tool.name tool) arguments
                 (state_of (add_mcp_server w server_name command args None self)))
     = trace_of (OpenAIMCPBridge.call_mcp_tool w' (Tool.name tool) arguments
                   (bridge_after w command args)).
Proof.
  intros Hok Hlist Hfresh Hin.
  rewrite add_mcp_server_eq in *.
  destruct (MCPServerConnection.connect w _) as [[r server] ev] eqn:Hconn.
  destruct r as [[]|e]; unfold result_of at 1 in Hok; cbn [fst snd] in Hok;
    [|discriminate].
  assert (Hworld := connect_world w
                      (MCPServerConnection.__init__ server_name command args)).
  rewrite Hconn in Hworld. destruct (Hworld eq_refl) as (Hw1 & Hw2 & Hw3).
  cbn in Hw1, Hw2, Hw3.
  apply connect_is_open in Hconn as ((Hsess & Hstack) & _ & Hparams & Htools);
    [|reflexivity].
  rewrite Hlist in Htools. injection Htools as Htools.
  rewrite (bridge_after_connected w command args tools Hw1 Hw2 Hw3 Hlist).
  rewrite bridge_call_eq. cbn [OpenAIMCPBridge.session OpenAIMCPBridge.session_entered
                               OpenAIMCPBridge.stack peer existsb orb].
  change (state_of (Return tt,
                    register_batch server_name None (MCPServerConnection.tools server)
                      (set_mcp_servers
                         (dict_set (mcp_servers self) server_name server) self),
                    ev))
    with (register_batch server_name None (MCPServerConnection.tools server)
            (set_mcp_servers (dict_set (mcp_servers self) server_name server) self)).
  set (start := set_mcp_servers (dict_set (mcp_servers self) server_name server) self).
  set (sys := register_batch server_name None (MCPServerConnection.tools server) start).
  assert (Hnative : native_tools sys !! Tool.name tool = None).
  { unfold sys. rewrite (proj2 (register_batch_keeps _ _ _ _)).
    apply name_free_not_native, Hfresh, Hin. }
  assert (Hservers : dict_get (mcp_servers sys) server_name = Some server).
  { unfold sys. rewrite (proj1 (register_batch_keeps _ _ _ _)).
    apply dict_get_set_eq. }
  assert (Hall : all_tools sys
                 = all_tools self
                   ++ map (fun t => remote_def server_name (Tool.name t) t) tools).
  { unfold sys. rewrite <- Htools. now rewrite register_batch_fresh. }
  apply list_elem_of_split in Hin as (t1 & t2 & Hsplit).
  assert (Hfind : find (is_mcp_tool_named (Tool.name tool)) (all_tools sys)
                  = Some (remote_def server_name (Tool.name tool) tool)).
  { rewrite Hall, Hsplit, map_app. cbn [map]. rewrite app_assoc.
    apply find_first.
    - intros d Hd. unfold is_mcp_tool_named. apply andb_false_iff. left.
      apply String.eqb_neq. intros Heq.
      apply elem_of_app in Hd as [Hd|Hd].
      + destruct Hfresh as [_ Hfree].
        assert (Hfree' : name_taken self (Tool.name tool) = false).
        { apply Hfree. rewrite Hsplit. apply elem_of_app. right. left. }
        apply name_free_not_registered in Hfree'. apply Hfree'.
        rewrite <- Heq. now apply list_elem_of_fmap_2.
      + apply list_elem_of_fmap in Hd as (t & -> & Ht). cbn in Heq.
        destruct Hfresh as [Hnd _]. rewrite Hsplit, map_app in Hnd.
        apply NoDup_app in Hnd as (_ & Hdisjoint & _).
        apply (Hdisjoint (Tool.name tool)).
        * rewrite <- Heq. now apply list_elem_of_fmap_2.
        * cbn. left.
    - unfold is_mcp_tool_named. cbn. now rewrite String.eqb_refl. }
  rewrite (execute_tool_found w' (Tool.name tool) arguments sys _
             {| _mcp_server := server_name; _mcp_original_name := Tool.name tool |}
             server Hnative Hfind eq_refl Hservers).
  unfold result_of, trace_of. cbn [fst snd]. rewrite call_tool_eq, Hsess.
  unfold MCPServerConnection.session_entered. rewrite Hstack, Hparams. cbn.
  split; reflexivity.
Qed.

Lemma hybrid_call_agrees_with_bridge_witness :
  result_of (add_mcp_server (Examples.calm Examples.clash_tools []) "srv" "python"
                            ["srv.py"] None HybridToolSystem.__init__) = Return tt
  /\ fresh_tools HybridToolSystem.__init__ Examples.clash_tools
  /\ (Examples.tool "get" ∈ Examples.clash_tools)
  /\ result_of (execute_tool (Examples.calm [] [TextContent "7"; TextContent "8"])
                             (Tool.name (Examples.tool "get")) []
                  (state_of (add_mcp_server (Examples.calm Examples.clash_tools [])
                               "srv" "python" ["srv.py"] None
                               HybridToolSystem.__init__)))
     = result_of (OpenAIMCPBridge.call_mcp_tool
                    (Examples.calm [] [TextContent "7"; TextContent "8"])
                    (Tool.name (Examples.tool "get")) []
                    (bridge_after (Examples.calm Examples.clash_tools []) "python"
                                  ["srv.py"])).
Proof.
  assert (Hfresh : fresh_tools HybridToolSystem.__init__ Examples.clash_tools).
  { split.
    - apply (bool_decide_unpack _). vm_compute. reflexivity.
    - intros tool _. reflexivity. }
  assert (Hin : Examples.tool "get" ∈ Examples.clash_tools).
  { unfold Examples.clash_tools. right. left. }
  split; [reflexivity|]. split; [exact Hfresh|]. split; [exact Hin|].
  apply (hybrid_call_agrees_with_bridge (Examples.calm Examples.clash_tools [])
           (Examples.calm [] [TextContent "7"; TextContent "8"])
           "srv" "python" ["srv.py"] HybridToolSystem.__init__ Examples.clash_tools
           (Examples.tool "get") []);
    [reflexivity | reflexivity | exact Hfresh | exact Hin].
Defined.

(** ** [main]: what is attached is closed *)

Lemma filter_none {A} (f : A -> bool) (l : list A) :
  Forall (fun x => f x = false) l -> List.filter f l = [].
Proof.
  induction 1 as [|x l Hx _ IH]; [reflexivity|]. cbn. now rewrite Hx.
Qed.

Lemma connect_trace_no_aclose w self :
  Forall (fun ev => is_aclose ev = false)
         (trace_of (MCPServerConnection.connect w self)).
Proof.
  unfold MCPServerConnection.connect, bind, modify, gets, await, trace_of. cbn.
  destruct (w_stdio_client w _) as [[]|e1]; cbn; [|repeat constructor].
  destruct (w_client_session w _) as [[]|e2]; cbn; [|repeat constructor].
  destruct (w_initialize w _) as [[]|e3]; cbn; [|repeat constructor].
  destruct (w_list_tools w _) as [ts|e4]; cbn; repeat constructor.
Qed.

Lemma execute_tool_no_aclose w tool_name arguments self :
  Forall (fun ev => is_aclose ev = false)
         (trace_of (execute_tool w tool_name arguments self)).
Proof.
  rewrite execute_tool_eq.
  destruct (native_tools self !! tool_name) as [function|];
    [repeat constructor|].
  destruct (find (is_mcp_tool_named tool_name) (all_tools self))
    as [[n ds p [meta|]]|]; try constructor.
  unfold call_on_server, trace_of.
  destruct (dict_get (mcp_servers self) (_mcp_server meta)) as [server|];
    [|constructor].
  rewrite call_tool_eq.
  destruct (MCPServerConnection.session server); cbn; repeat constructor.
Qed.

Section ChatKeeps.
Variable client : Chat.Request -> PyResult Chat.ChatCompletionMessage.
Variable json_loads : string -> PyResult Arguments_.
Variable w : World.

Lemma tool_outcome_no_aclose sys call :
  Forall (fun ev => is_aclose ev = false) (snd (tool_outcome json_loads w sys call)).
Proof.
  unfold tool_outcome.
  destruct (json_loads (Chat.function_arguments call)); [|constructor].
  apply execute_tool_no_aclose.
Qed.

Lemma run_tool_calls_keeps calls acc s :
  state_of (Chat.run_tool_calls json_loads w calls acc s) = s
  /\ Forall (fun ev => is_aclose ev = false)
            (trace_of (Chat.run_tool_calls json_loads w calls acc s)).
Proof.
  revert acc. induction calls as [|call rest IH]; intros acc.
  - split; [reflexivity | constructor].
  - cbn [Chat.run_tool_calls]. rewrite one_tool_call.
    pose proof (tool_outcome_no_aclose (Chat.system s) call) as Hev.
    destruct (fst (tool_outcome json_loads w (Chat.system s) call)) as [result|e].
    + destruct (IH (acc ++ [Chat.ToolMessage (Chat.id call)
                                             (Chat.function_name call) result]))
        as [Hs Ht].
      destruct (Chat.run_tool_calls json_loads w rest _ s) as [[r s'] ev].
      unfold state_of, trace_of in *. cbn [fst snd] in *.
      split; [exact Hs | now apply Forall_app].
    + split; [reflexivity | exact Hev].
Qed.

(** [chat_completion] never changes the system and never closes a
    server. *)
Lemma chat_completion_keeps s :
  Chat.system (state_of (Chat.chat_completion client json_loads w s)) = Chat.system s
  /\ Forall (fun ev => is_aclose ev = false)
            (trace_of (Chat.chat_completion client json_loads w s)).
Proof.
  rewrite chat_completion_eq. cbv zeta.
  destruct (client (first_request s)) as [message|e];
    [|split; [reflexivity | constructor]].
  destruct (Chat.tool_calls message) as [[|first others]|];
    try (split; [reflexivity | constructor]).
  destruct (run_tool_calls_keeps (first :: others) []
              {| Chat.system := Chat.system s; Chat.messages := Chat.messages s;
                 Chat.requests := Chat.requests s ++ [first_request s] |})
    as [Hs Ht].
  destruct (Chat.run_tool_calls json_loads w (first :: others) [] _)
    as [[[tool_results|e] s2] ev];
    unfold state_of, trace_of in *; cbn [fst snd] in *; subst s2;
    split; [reflexivity | exact Ht | reflexivity | exact Ht].
Qed.

End ChatKeeps.

Lemma filter_app_list {A} (f : A -> bool) (l1 l2 : list A) :
  List.filter f (l1 ++ l2) = List.filter f l1 ++ List.filter f l2.
Proof.
  induction l1 as [|x l1 IH]; cbn; [reflexivity|].
  destruct (f x); cbn; now rewrite IH.
Qed.

Lemma close_no_servers w sys :
  mcp_servers sys = [] -> close w sys = (Return tt, sys, []).
Proof.
  intros Hnone. unfold close. rewrite Hnone. cbn. rewrite <- Hnone.
  now rewrite set_mcp_servers_same.
Qed.

Lemma close_one_open w sys k server :
  mcp_servers sys = [(k, server)] -> is_open server ->
  mcp_servers (state_of (close w sys))
  = [(k, MCPServerConnection.set_stack (Some []) server)]
  /\ trace_of (close w sys) = [EvAclose (MCPServerConnection.server_params server)].
Proof.
  intros Hone [_ Hstack]. unfold close. rewrite Hone. cbn [close_each].
  rewrite connection_close_eq. unfold has_entered. rewrite Hstack.
  destruct (w_aclose w _) as [[]|e]; cbn; split; reflexivity.
Qed.

Lemma guarded_attach_closes
      (client : Chat.Request -> PyResult Chat.ChatCompletionMessage)
      (json_loads : string -> PyResult Arguments_) (w : World)
      (server_name command : string) (args : list string)
      (tool_prefix : option string) (sent : list Chat.MessageDict)
      (s0 : Chat.State) (out : PyResult unit * Chat.State * list Event) :
  mcp_servers (Chat.system s0) = [] ->
  try_finally
    (Chat.on_system (add_mcp_server w server_name command args tool_prefix) ;;;
     modify (Chat.set_messages sent) ;;;
     response <~ Chat.chat_completion client json_loads w ;;
     ret tt)
    (Chat.on_system (close w)) s0 = out ->
  pending (mcp_servers (Chat.system (state_of out))) = 0
  /\ length (List.filter is_aclose (trace_of out))
     = length (mcp_servers (Chat.system (state_of out))).
Proof.
  intros Hnone Hout. revert Hout.
  unfold try_finally, bind at 1, Chat.on_system at 1.
  rewrite add_mcp_server_eq.
  pose proof (connect_trace_no_aclose w
                (MCPServerConnection.__init__ server_name command args)) as Hevc.
  destruct (MCPServerConnection.connect w _) as [[r server] evc] eqn:Hconn.
  unfold trace_of in Hevc. cbn [snd] in Hevc.
  destruct r as [[]|e].
  2:{ unfold Chat.on_system. cbn [Chat.system Chat.set_system].
      rewrite (close_no_servers w _ Hnone). intros <-.
      unfold state_of, trace_of. cbn.
      rewrite Hnone, app_nil_r, (filter_none _ _ Hevc). split; reflexivity. }
  apply connect_is_open in Hconn as (Hopen & _); [|reflexivity].
  set (sys1 := register_batch _ _ _ _).
  assert (Hone : mcp_servers sys1 = [(server_name, server)]).
  { unfold sys1. rewrite (proj1 (register_batch_keeps _ _ _ _)).
    cbn [mcp_servers set_mcp_servers]. now rewrite Hnone. }
  unfold bind at 1, modify. unfold bind at 1.
  set (s1 := Chat.set_messages sent (Chat.set_system sys1 s0)).
  destruct (chat_completion_keeps client json_loads w s1) as [Hsys Hevchat].
  destruct (Chat.chat_completion client json_loads w s1) as [[rc sc] evchat].
  unfold state_of, trace_of in Hsys, Hevchat. cbn [fst snd] in Hsys, Hevchat.
  assert (Hsc : mcp_servers (Chat.system sc) = [(server_name, server)]).
  { rewrite Hsys. exact Hone. }
  destruct (close_one_open w (Chat.system sc) server_name server Hsc Hopen)
    as [Hclosed Htrace].
  assert (Hcount : length (List.filter is_aclose
                             ((evc ++ [] ++ evchat)
                              ++ [EvAclose (MCPServerConnection.server_params server)]))
                   = 1).
  { rewrite !filter_app_list, (filter_none _ _ Hevc), (filter_none _ _ Hevchat).
    reflexivity. }
  assert (Hcount' : length (List.filter is_aclose
                             ((evc ++ [] ++ evchat ++ [])
                              ++ [EvAclose (MCPServerConnection.server_params server)]))
                   = 1).
  { now rewrite app_nil_r. }
  unfold Chat.on_system, ret.
  destruct rc as [response|e]; cbv beta iota;
    destruct (close w (Chat.system sc)) as [[r0 sys2] ev2];
    unfold state_of, trace_of in Hclosed, Htrace; cbn [fst snd] in Hclosed, Htrace;
    subst ev2; destruct r0; intros <-; unfold state_of, trace_of;
    cbn [fst snd Chat.system Chat.set_system]; rewrite Hclosed;
    (split; [reflexivity | assumption]).
Qed.

Lemma native_then {A} name description parameters function
      (k : M Chat.State A) (s : Chat.State) :
  (Chat.on_system (add_native_tool name description parameters function) ;;; k) s
  = k (Chat.set_system
         (state_of (add_native_tool name description parameters function
                                    (Chat.system s))) s).
Proof.
  unfold bind, Chat.on_system. rewrite add_native_tool_eq.
  unfold state_of. cbn [fst snd]. destruct (k _) as [[r s'] ev]. reflexivity.
Qed.

(** X17: [main] closes what it attached.  With whatever answers from the
    model, the server and the tools, and whether the attach, the chat or
    the closing itself fails, at the end of [main] no stored connection
    has a context entered, and every stored connection was awaited for
    one [aclose]. *)
Theorem main_closes_what_it_attached
        (client : Chat.Request -> PyResult Chat.ChatCompletionMessage)
        (json_loads : string -> PyResult Arguments_) (w : World)
        (get_current_time calculate_square : Callable) :
  pending (mcp_servers
             (Chat.system
                (state_of (Main.main client json_loads w get_current_time
                                     calculate_square Main.start)))) = 0
  /\ length (List.filter is_aclose
               (trace_of (Main.main client json_loads w get_current_time
                                    calculate_square Main.start)))
     = length (mcp_servers
                 (Chat.system
                    (state_of (Main.main client json_loads w get_current_time
                                         calculate_square Main.start)))).
Proof.
  unfold Main.main. rewrite !native_then.
  match goal with
  | |- context [try_finally _ _ ?s0] =>
      apply (guarded_attach_closes client json_loads w "simple_server" "python"
               ["simple_server.py"] (Some "mcp") [Chat.Plain "user" Main.question]
               s0 _ eq_refl eq_refl)
  end.
Qed.

(** ** Tools of closed servers *)

Lemma close_each_returned w servers :
  fst (fst (close_each w servers)) = Return tt ->
  snd (fst (close_each w servers)) = map (closed_entry w) servers.
Proof.
  induction servers as [|[k server] rest IH]; [reflexivity|].
  cbn [close_each map]. unfold closed_entry at 1, state_of. cbn [fst snd].
  destruct (MCPServerConnection.close w server) as [[[[]|e] server'] ev];
    cbn [fst snd]; [|discriminate].
  destruct (close_each w rest) as [[r rest'] ev']. cbn [fst snd] in *.
  intros Hr. now rewrite (IH Hr).
Qed.

Lemma dict_get_closed w (servers : list (string * MCPServerConnection.t)) k :
  dict_get (map (closed_entry w) servers) k
  = (fun server => state_of (MCPServerConnection.close w server))
      <$> dict_get servers k.
Proof.
  induction servers as [|[k' server] rest IH]; [reflexivity|].
  cbn. destruct (String.eqb k' k); [reflexivity | exact IH].
Qed.

Lemma close_open_connection w server :
  is_open server ->
  MCPServerConnection.session (state_of (MCPServerConnection.close w server))
  = Some {| peer := MCPServerConnection.server_params server |}
  /\ MCPServerConnection.session_entered
       (state_of (MCPServerConnection.close w server)) = false
  /\ lifecycle_of (state_of (MCPServerConnection.close w server)) = Closed.
Proof.
  intros [Hsess Hstack]. rewrite connection_close_eq. unfold has_entered.
  rewrite Hstack. unfold state_of, lifecycle_of, MCPServerConnection.session_entered.
  cbn. rewrite Hsess. repeat split.
Qed.

(** X18: [close] does not retire the tools.  In a system built by
    registrations and then closed, a remote name is still dispatched:
    [execute_tool] finds the closed connection and awaits the call on
    its session object, whose context is no longer entered; what comes
    back is what the library makes of that. *)
Theorem closed_servers_are_still_called
        (w : World) (rs : list Registration) (w1 w' : World)
        (tool_name : string) (arguments : Arguments_) :
  result_of (close w1 (registry_after w rs HybridToolSystem.__init__)) = Return tt ->
  native_tools (registry_after w rs HybridToolSystem.__init__) !! tool_name = None ->
  tool_name ∈ remote_names (registry_after w rs HybridToolSystem.__init__) ->
  exists meta server,
    dict_get (mcp_servers
                (state_of (close w1 (registry_after w rs HybridToolSystem.__init__))))
             (_mcp_server meta) = Some server
    /\ lifecycle_of server = Closed
    /\ execute_tool w' tool_name arguments
         (state_of (close w1 (registry_after w rs HybridToolSystem.__init__)))
       = (joined_text (w_call_tool w' (MCPServerConnection.server_params server) false
                                   (_mcp_original_name meta) arguments),
          state_of (close w1 (registry_after w rs HybridToolSystem.__init__)),
          [EvCallTool (MCPServerConnection.server_params server)
                      (_mcp_original_name meta) arguments]).
Proof.
  intros Hclose Hnative Hremote.
  destruct (registry_after_wired w rs) as [Hopen Hknown].
  set (self := registry_after w rs HybridToolSystem.__init__) in *.
  assert (Hafter : state_of (close w1 self)
                   = set_mcp_servers (map (closed_entry w1) (mcp_servers self)) self).
  { unfold close, result_of, state_of in *.
    pose proof (close_each_returned w1 (mcp_servers self)) as Hret.
    destruct (close_each w1 (mcp_servers self)) as [[r servers'] ev].
    cbn [fst snd] in *. now rewrite (Hret Hclose). }
  rewrite Hafter.
  unfold remote_names in Hremote.
  apply list_elem_of_fmap in Hremote as (d0 & Hname0 & Hin0).
  apply list_elem_of_filter in Hin0 as [Hmcp0 Hin0].
  assert (Hf0 : is_mcp_tool_named tool_name d0 = true).
  { unfold is_mcp_tool_named. rewrite <- Hname0, String.eqb_refl.
    cbn. now apply Is_true_eq_true. }
  destruct (find_present _ _ _ Hin0 Hf0) as (d & Hfind & Hin & Hf).
  unfold is_mcp_tool_named in Hf. apply andb_true_iff in Hf as [_ Hmcp].
  apply bool_decide_eq_true in Hmcp as [meta Hmeta].
  destruct (Hknown d meta Hin Hmeta) as [server Hget].
  assert (Hserver : is_open server).
  { unfold servers_open in Hopen. rewrite Forall_forall in Hopen.
    apply (Hopen (_mcp_server meta, server)). now apply dict_get_elem. }
  destruct (close_open_connection w1 server Hserver) as (Hsess & Hentered & Hlife).
  assert (Hparams : MCPServerConnection.server_params
                      (state_of (MCPServerConnection.close w1 server))
                    = MCPServerConnection.server_params server).
  { rewrite connection_close_eq. now destruct (has_entered server). }
  exists meta, (state_of (MCPServerConnection.close w1 server)).
  assert (Hget' : dict_get (mcp_servers
                              (set_mcp_servers (map (closed_entry w1) (mcp_servers self))
                                               self))
                           (_mcp_server meta)
                  = Some (state_of (MCPServerConnection.close w1 server))).
  { cbn [mcp_servers set_mcp_servers]. now rewrite dict_get_closed, Hget. }
  split; [exact Hget'|]. split; [exact Hlife|].
  rewrite (execute_tool_found w' tool_name arguments
             (set_mcp_servers (map (closed_entry w1) (mcp_servers self)) self)
             d meta (state_of (MCPServerConnection.close w1 server))
             Hnative Hfind Hmeta Hget').
  rewrite call_tool_eq, Hsess, Hentered, Hparams. reflexivity.
Qed.

Lemma closed_servers_are_still_called_witness :
  result_of (close MoreExamples.demo_world
               (registry_after MoreExamples.demo_world MoreExamples.demo_registrations
                               HybridToolSystem.__init__)) = Return tt
  /\ ("mcp_get_hundred"
        ∈ remote_names (registry_after MoreExamples.demo_world
                          MoreExamples.demo_registrations HybridToolSystem.__init__))
  /\ exists meta server,
       dict_get (mcp_servers
                   (state_of (close MoreExamples.demo_world
                                (registry_after MoreExamples.demo_world
                                   MoreExamples.demo_registrations
                                   HybridToolSystem.__init__))))
                (_mcp_server meta) = Some server
       /\ lifecycle_of server = Closed.
Proof.
  assert (Hremote : "mcp_get_hundred"
                      ∈ remote_names (registry_after MoreExamples.demo_world
                                        MoreExamples.demo_registrations
                                        HybridToolSystem.__init__)).
  { apply (bool_decide_unpack _). vm_compute. reflexivity. }
  split; [reflexivity|]. split; [exact Hremote|].
  destruct (closed_servers_are_still_called MoreExamples.demo_world
              MoreExamples.demo_registrations MoreExamples.demo_world
              MoreExamples.demo_world "mcp_get_hundred" []
              ltac:(reflexivity) ltac:(vm_compute; reflexivity) Hremote)
    as (meta & server & Hget & Hlife & _).
  exists meta, server. split; assumption.
Defined.

(** ** [get_hundred_from_mcp] of [langchain_mcp_simple.py] *)

Lemma first_text_int_skips int others text rest :
  Forall (fun c => c = OtherContent) others ->
  Simple.first_text_int int (others ++ TextContent text :: rest) = int text.
Proof.
  induction 1 as [|c others -> _ IH]; [reflexivity | exact IH].
Qed.

(** X19: [get_hundred_from_mcp] reads one text and stops.  With a
    session in place it awaits one [get_hundred] call and returns [int]
    of the first item that has a text, or raises what [int] raises; the
    items after it, texts included, are never looked at, and the
    globals are untouched. *)
Theorem get_hundred_reads_first_text
        (int : string -> PyResult Z) (w : World) (g : Simple.Globals)
        (sess : ClientSession) (others rest : list ContentItem) (text : string) :
  Simple.mcp_session g = Some sess ->
  w_call_tool w (peer sess) (Simple.session_entered g) "get_hundred" []
  = Return (others ++ TextContent text :: rest) ->
  Forall (fun c => c = OtherContent) others ->
  Simple.get_hundred_from_mcp int w g
  = (int text, g, [EvCallTool (peer sess) "get_hundred" []]).
Proof.
  intros Hsess Hanswer Hothers.
  unfold Simple.get_hundred_from_mcp, bind, gets, await, lift. cbv beta iota.
  rewrite Hsess. cbv beta iota. rewrite Hanswer.
  now rewrite (first_text_int_skips int others text rest Hothers).
Qed.

Lemma get_hundred_reads_first_text_witness :
  Simple.mcp_session MoreExamples.simple_ready = Some {| peer := Simple.server_params |}
  /\ w_call_tool MoreExamples.mixed_world Simple.server_params
                 (Simple.session_entered MoreExamples.simple_ready) "get_hundred" []
     = Return ([OtherContent] ++ TextContent "100" :: [TextContent "7"])
  /\ Forall (fun c => c = OtherContent) [OtherContent]
  /\ Simple.get_hundred_from_mcp MoreExamples.int_hundred MoreExamples.mixed_world
                                 MoreExamples.simple_ready
     = (Return 100%Z, MoreExamples.simple_ready,
        [EvCallTool Simple.server_params "get_hundred" []]).
Proof.
  assert (Hothers : Forall (fun c => c = OtherContent) [OtherContent])
    by (repeat constructor).
  split; [reflexivity|]. split; [reflexivity|]. split; [exact Hothers|].
  exact (get_hundred_reads_first_text MoreExamples.int_hundred MoreExamples.mixed_world
           MoreExamples.simple_ready {| peer := Simple.server_params |}
           [OtherContent] [TextContent "7"] "100" eq_refl eq_refl Hothers).
Defined.
